(** * Profile-picture API (server.js): a shallow embedding and its properties

    The program is an Express application with three routes over an S3
    bucket.  The embedding follows server.js top to bottom:

    - the JavaScript and Node primitives the handlers call
      ([toLowerCase], [path.extname], the two [String.replace] calls, the
      regular-expression tests, [String.includes], [decodeURIComponent]);
    - the multer configuration ([fileFilter], [limits.fileSize]);
    - the S3 client as a collaborator whose calls are logged in a world;
    - the three route handlers and the error-handling middleware. *)

From Stdlib Require Import ZArith Ascii String List Bool Lia.
From stdpp Require Import base option list strings pretty gmap.

Local Open Scope Z_scope.

(** ** JavaScript string primitives *)

Module Js.

(** Strings are sequences of bytes (the UTF-8 form of the JavaScript
    string).  Every primitive below only inspects ASCII characters, whose
    bytes never occur inside a multi-byte UTF-8 sequence. *)

Definition is_upper (c : ascii) : bool :=
  let n := N_of_ascii c in (65 <=? n)%N && (n <=? 90)%N.

Definition lower_char (c : ascii) : ascii :=
  if is_upper c then ascii_of_N (N_of_ascii c + 32) else c.

(** [s.toLowerCase()], on the ASCII letters.  The only characters outside
    ASCII whose lower case contains an ASCII letter are U+212A (k) and
    U+0130 (i and a combining dot); neither can yield one of the strings
    the program compares a lower-cased value with. *)
Fixpoint toLowerCase (s : string) : string :=
  match s with
  | EmptyString => EmptyString
  | String c r => String (lower_char c) (toLowerCase r)
  end.

(** A string is truthy when it is not empty. *)
Definition truthy (s : string) : bool :=
  match s with EmptyString => false | String _ _ => true end.

(** [a || b] on strings. *)
Definition or_else (a b : string) : string := if truthy a then a else b.

(** [a || b] where [a] may be [undefined]. *)
Definition or_undef (a : option string) (b : option string) : option string :=
  match a with
  | Some s => if truthy s then a else b
  | None => b
  end.

(** [s.replace(/\//g, '-')]: every slash becomes a hyphen. *)
Fixpoint replace_slashes (s : string) : string :=
  match s with
  | EmptyString => EmptyString
  | String c r =>
      String (if Ascii.eqb c "/" then "-"%char else c) (replace_slashes r)
  end.

(** [s.replace(/\/$/, '')]: one slash at the very end is dropped. *)
Fixpoint strip_trailing_slash (s : string) : string :=
  match s with
  | EmptyString => EmptyString
  | String c r =>
      match r with
      | EmptyString => if Ascii.eqb c "/" then EmptyString else s
      | String _ _ => String c (strip_trailing_slash r)
      end
  end.

(** [s.startsWith(p)], which is what [/^p/.test(s)] decides for a literal
    [p]. *)
Fixpoint starts_with (p s : string) : bool :=
  match p, s with
  | EmptyString, _ => true
  | String a p', String b s' => Ascii.eqb a b && starts_with p' s'
  | String _ _, EmptyString => false
  end.

(** [s.includes(p)]. *)
Fixpoint includes (p s : string) : bool :=
  starts_with p s ||
  match s with
  | EmptyString => false
  | String _ s' => includes p s'
  end.

(** Matching under the [i] flag: two characters match when they have the
    same canonical form. *)
Definition ci_char_eqb (a b : ascii) : bool :=
  Ascii.eqb (lower_char a) (lower_char b).

(** The rest of [s] after a case-insensitive literal prefix [p]. *)
Fixpoint ci_strip_prefix (p s : string) : option string :=
  match p, s with
  | EmptyString, _ => Some s
  | String a p', String b s' =>
      if ci_char_eqb a b then ci_strip_prefix p' s' else None
  | String _ _, EmptyString => None
  end.

(** A case-insensitive literal followed by the end of input. *)
Fixpoint ci_eqb (p s : string) : bool :=
  match p, s with
  | EmptyString, EmptyString => true
  | String a p', String b s' => ci_char_eqb a b && ci_eqb p' s'
  | _, _ => false
  end.

End Js.

(** ** Node's [path.extname] (POSIX flavour) *)

Module Path.

(** The five locals of the scanning loop. *)
Record scan := Scan {
  startDot : Z;
  startPart : Z;
  end_ : Z;
  matchedSlash : bool;
  preDotState : Z
}.

Definition scan0 : scan := Scan (-1) 0 (-1) true 0.

(** The loop [for (i = path.length - 1; i >= 0; --i)], run over the
    characters from the last one to the first.  [i] is the index of the
    character at the head of [rev_chars]. *)
Fixpoint extname_loop (rev_chars : list ascii) (i : Z) (st : scan) : scan :=
  match rev_chars with
  | [] => st
  | code :: rest =>
      if Ascii.eqb code "/" then
        if negb (matchedSlash st) then
          Scan (startDot st) (i + 1) (end_ st) (matchedSlash st) (preDotState st)
        else extname_loop rest (i - 1) st
      else
        let st1 :=
          if end_ st =? -1
          then Scan (startDot st) (startPart st) (i + 1) false (preDotState st)
          else st in
        let st2 :=
          if Ascii.eqb code "."
          then
            if startDot st1 =? -1
            then Scan i (startPart st1) (end_ st1) (matchedSlash st1) (preDotState st1)
            else if negb (preDotState st1 =? 1)
                 then Scan (startDot st1) (startPart st1) (end_ st1) (matchedSlash st1) 1
                 else st1
          else
            if negb (startDot st1 =? -1)
            then Scan (startDot st1) (startPart st1) (end_ st1) (matchedSlash st1) (-1)
            else st1 in
        extname_loop rest (i - 1) st2
  end.

Definition extname (path : string) : string :=
  let chars := list_ascii_of_string path in
  let st := extname_loop (rev chars) (Z.of_nat (List.length chars) - 1) scan0 in
  if (startDot st =? -1)
     || (end_ st =? -1)
     || (preDotState st =? 0)
     || ((preDotState st =? 1)
         && (startDot st =? end_ st - 1)
         && (startDot st =? startPart st + 1))
  then EmptyString
  else String.substring (Z.to_nat (startDot st))
                        (Z.to_nat (end_ st - startDot st)) path.

(** What the loop maintains once the characters at positions [m] and above
    have been read: a recorded end lies after [m], and a recorded dot is a
    dot of the path, at or after [m] and before the recorded end. *)
Definition dot_ok (chars : list ascii) (m : nat) (st : scan) : Prop :=
  (end_ st = -1 \/ Z.of_nat m < end_ st) /\
  (startDot st = -1 \/
   (Z.of_nat m <= startDot st < end_ st /\
    chars !! Z.to_nat (startDot st) = Some "."%char)).

End Path.

(** ** [decodeURIComponent]

    The built-in's Decode with an empty reserved set: every escape is
    replaced by its octet, and the octets of a non-ASCII character must
    form one well-formed UTF-8 sequence of escapes. *)

Module Uri.

Definition hex_val (c : ascii) : option N :=
  let n := N_of_ascii c in
  if (48 <=? n)%N && (n <=? 57)%N then Some (n - 48)%N
  else if (65 <=? n)%N && (n <=? 70)%N then Some (n - 55)%N
  else if (97 <=? n)%N && (n <=? 102)%N then Some (n - 87)%N
  else None.

Definition octet (h1 h2 : ascii) : option N :=
  match hex_val h1, hex_val h2 with
  | Some a, Some b => Some (16 * a + b)%N
  | _, _ => None
  end.

(** For the first octet of a multi-byte UTF-8 sequence: how many octets
    follow, and the range the next one must lie in.  [None] when no
    well-formed sequence starts with this octet. *)
Definition lead (b : N) : option (nat * N * N) :=
  if (b <? 194)%N then None
  else if (b <=? 223)%N then Some (1%nat, 128, 191)%N
  else if (b =? 224)%N then Some (2%nat, 160, 191)%N
  else if (b =? 237)%N then Some (2%nat, 128, 159)%N
  else if (b <=? 239)%N then Some (2%nat, 128, 191)%N
  else if (b =? 240)%N then Some (3%nat, 144, 191)%N
  else if (b <=? 243)%N then Some (3%nat, 128, 191)%N
  else if (b =? 244)%N then Some (3%nat, 128, 143)%N
  else None.

(** [decode s need lo hi]: [need] continuation octets are still owed, the
    next of them within [lo..hi].  [None] is the [URIError] the built-in
    throws on a malformed escape. *)
Fixpoint decode (s : string) (need : nat) (lo hi : N) : option string :=
  match s with
  | EmptyString => match need with O => Some EmptyString | S _ => None end
  | String c r =>
      if Ascii.eqb c "%" then
        match r with
        | String h1 (String h2 r') =>
            match octet h1 h2 with
            | None => None
            | Some b =>
                match need with
                | S n =>
                    if (lo <=? b)%N && (b <=? hi)%N
                    then String (ascii_of_N b) <$> decode r' n 128%N 191%N
                    else None
                | O =>
                    if (b <? 128)%N
                    then String (ascii_of_N b) <$> decode r' O 128%N 191%N
                    else match lead b with
                         | Some (n, l, h) =>
                             String (ascii_of_N b) <$> decode r' n l h
                         | None => None
                         end
                end
            end
        | _ => None
        end
      else
        match need with
        | O => String c <$> decode r O 128%N 191%N
        | S _ => None
        end
  end.

Definition decodeURIComponent (s : string) : option string :=
  decode s O 128%N 191%N.

End Uri.

(** What a caller does to a key before putting it in the path: a percent
    sign is written [%25]. *)
Fixpoint escape_percent (k : string) : string :=
  match k with
  | EmptyString => EmptyString
  | String c r =>
      if Ascii.eqb c "%" then String "%" (String "2" (String "5" (escape_percent r)))
      else String c (escape_percent r)
  end.

(** ** Errors and responses *)

(** The two classes of error object the error-handling middleware tells
    apart: [multer.MulterError] (with its [code]) and a plain [Error]. *)
Inductive JsError : Type :=
| MulterError (code message : string)
| Error (message : string).

Definition message (e : JsError) : string :=
  match e with MulterError _ m => m | Error m => m end.

(** One element of the listing's [items] array. *)
Record Item := {
  item_key : string;
  item_size : Z;
  item_lastModified : string;
  item_url : option string   (* [None] is JSON [null] *)
}.

(** The JSON bodies the routes send. *)
Inductive Json : Type :=
| JHealth                                   (* { ok: true, service: 'profile-pic-api' } *)
| JError (error : string)                   (* { error } *)
| JUploaded (url key : string)              (* { success: true, url, key } *)
| JList (prefix : string) (count : Z) (items : list Item)
| JUrl (url : string).                      (* { url } *)

Record Response := { status : Z; json : Json }.

(** ** The multer configuration *)

(** What multer hands to [fileFilter] and, once buffered, to the handler as
    [req.file]. *)
Record File := {
  originalname : string;
  mimetype : string;
  buffer : list Byte.byte
}.

(** The filter's callback [cb(err, accept)]. *)
Inductive Callback : Type := cb (err : option JsError) (accept : bool).

(** [/^image\/(jpeg|jpg|pjpeg|png|gif|webp)$/i.test(s)] *)
Definition allowedMime_test (s : string) : bool :=
  match Js.ci_strip_prefix "image/" s with
  | Some sub =>
      existsb (fun alt => Js.ci_eqb alt sub)
              ["jpeg"; "jpg"; "pjpeg"; "png"; "gif"; "webp"]
  | None => false
  end.

Definition allowedExt : list string := [".jpg"; ".jpeg"; ".png"; ".gif"; ".webp"].

(** [allowedExt.includes(ext)] *)
Definition allowedExt_includes (ext : string) : bool :=
  existsb (String.eqb ext) allowedExt.

Definition only_images : string :=
  "Only images (.jpeg, .jpg, .png, .gif, .webp) are allowed.".

Definition fileFilter (file : File) : Callback :=
  if allowedMime_test (mimetype file) then cb None true
  else
    let ext := Js.toLowerCase (Js.or_else (Path.extname (Js.or_else (originalname file) EmptyString)) EmptyString) in
    if allowedExt_includes ext then cb None true
    else cb (Some (Error only_images)) false.

(** [limits: { fileSize: 5 * 1024 * 1024 }] *)
Definition fileSize : Z := 5 * 1024 * 1024.

(** Modelled from the spec: [upload.single('file')] is multer's, library
    code outside the repository, which only configures it with [fileFilter]
    and [limits.fileSize].  The filter is handed the part's file name and
    declared type, not its bytes, and decides first whether the part is
    read at all; a part it lets through is then held against the limit.
    Per the spec the payload is rejected when its byte length exceeds the
    limit, and multer reports that as a [MulterError] with code
    [LIMIT_FILE_SIZE].  The result is the error passed to [next], or
    [req.file] ([None] when the request has no file part).

    Left to the library and not settled by this model: the verdict on a
    part of exactly [fileSize] bytes, where the model follows the spec's
    word, and multer's errors for a malformed body or for a file sent under
    another field name, requests that [UploadRequest] does not describe. *)
Definition upload_single (part : option File) : JsError + option File :=
  match part with
  | None => inr None
  | Some file =>
      match fileFilter file with
      | cb (Some e) _ => inl e
      | cb None false => inr None
      | cb None true =>
          if fileSize <? Z.of_nat (List.length (buffer file))
          then inl (MulterError "LIMIT_FILE_SIZE" "File too large")
          else inr (Some file)
      end
  end.

(** The final [app.use((err, req, res, next) => ...)]. *)
Definition error_middleware (err : JsError) : Response :=
  let size_limit :=
    match err with
    | MulterError code _ => String.eqb code "LIMIT_FILE_SIZE"
    | Error _ => false
    end in
  if size_limit then {| status := 400; json := JError "File too large. Max 5 MB." |}
  else if Js.truthy (message err) && Js.includes "Only images" (message err)
  then {| status := 400; json := JError (message err) |}
  else {| status := 500; json := JError (Js.or_else (message err) "Server error") |}.

(** ** The S3 collaborator and the world the handlers run in *)

(** [process.env], as far as the handlers read it. *)
Record Env := {
  S3_BUCKET : string;
  S3_PROFILE_PREFIX : option string;
  S3_PUBLIC_BASE_URL : option string
}.

(** What a [PutObjectCommand] stores under its key. *)
Record S3Object := {
  Body : list Byte.byte;
  ContentType : string;
  CacheControl : string
}.

(** One entry of [list.Contents]. *)
Record Listed := {
  Key : string;
  Size : Z;
  LastModified : string
}.

(** The calls that leave the process. *)
Inductive Call : Type :=
| PutObject (bucket key : string) (obj : S3Object)
| ListObjectsV2 (bucket prefix : string) (maxKeys : Z)
| GetSignedUrl (bucket key : string) (expiresIn : Z)
| RandomUUID.


(** The buckets' contents, and the log of the calls made so far (oldest
    first). *)
Record World := {
  objects : gmap (string * string) S3Object;
  calls : list Call
}.

(** How the outside answers.  Each answer may depend on the world at the
    time of the call.  A [Some msg] from [put_error], an [inl msg] from the
    other two, is the message of the error the awaited promise rejects
    with. *)
Record Service := {
  put_error : World -> string -> string -> S3Object -> option string;
  list_reply : World -> string -> string -> Z -> string + option (list Listed);
  sign_reply : World -> string -> string -> Z -> string + string;
  uuid_reply : World -> string
}.

Definition logged (c : Call) (w : World) : World :=
  {| objects := objects w; calls := calls w ++ [c] |}.

(** *** A state-and-exception monad for the handlers' bodies *)

Definition M (A : Type) : Type := World -> (JsError + A) * World.

Definition ret {A : Type} (a : A) : M A := fun w => (inr a, w).

Definition throw {A : Type} (e : JsError) : M A := fun w => (inl e, w).

Definition bind {A B : Type} (m : M A) (k : A -> M B) : M B :=
  fun w =>
    match m w with
    | (inl e, w') => (inl e, w')
    | (inr a, w') => k a w'
    end.

(** [try { m } catch (err) { h err }] *)
Definition try_catch {A : Type} (m : M A) (h : JsError -> M A) : M A :=
  fun w =>
    match m w with
    | (inl e, w') => h e w'
    | (inr a, w') => (inr a, w')
    end.

Declare Scope js_scope.
Delimit Scope js_scope with js.
Notation "'let!' x ':=' c 'in' k" := (bind c (fun x => k))
  (at level 10, x name, c at level 100, k at level 200) : js_scope.
Notation "'do!' c 'in' k" := (bind c (fun _ => k))
  (at level 10, c at level 100, k at level 200) : js_scope.

Section Server.

Variable env : Env.
Variable svc : Service.

Definition BUCKET : string := S3_BUCKET env.

(** [process.env.S3_PROFILE_PREFIX || 'profile-pics'] *)
Definition PROFILE_PREFIX : string :=
  match S3_PROFILE_PREFIX env with
  | Some p => Js.or_else p "profile-pics"
  | None => "profile-pics"
  end.

(** [crypto.randomUUID()] *)
Definition randomUUID : M string :=
  fun w => (inr (uuid_reply svc w), logged RandomUUID w).

(** [await s3Client.send(new PutObjectCommand({...}))].  A rejected put
    leaves the bucket as it was. *)
Definition send_put (bucket key : string) (obj : S3Object) : M unit :=
  fun w =>
    let w' := logged (PutObject bucket key obj) w in
    match put_error svc w bucket key obj with
    | Some msg => (inl (Error msg), w')
    | None =>
        (inr tt, {| objects := <[(bucket, key) := obj]> (objects w');
                    calls := calls w' |})
    end.

(** [await s3Client.send(new ListObjectsV2Command({...}))] *)
Definition send_list (bucket prefix : string) (maxKeys : Z)
  : M (option (list Listed)) :=
  fun w =>
    let w' := logged (ListObjectsV2 bucket prefix maxKeys) w in
    match list_reply svc w bucket prefix maxKeys with
    | inl msg => (inl (Error msg), w')
    | inr contents => (inr contents, w')
    end.

(** [await getSignedUrl(s3Client, new GetObjectCommand({...}), { expiresIn })] *)
Definition getSignedUrl (bucket key : string) (expiresIn : Z) : M string :=
  fun w =>
    let w' := logged (GetSignedUrl bucket key expiresIn) w in
    match sign_reply svc w bucket key expiresIn with
    | inl msg => (inl (Error msg), w')
    | inr url => (inr url, w')
    end.

(** ** The routes *)

(** [GET /health] *)
Definition get_health : Response := {| status := 200; json := JHealth |}.

(** The multipart request of [POST /api/upload/profile-pic]: the two query
    parameters, the two text fields of the body, and the part named
    [file]. *)
Record UploadRequest := {
  query_userId : option string;
  query_user_id : option string;
  body_userId : option string;
  body_user_id : option string;
  file_part : option File
}.

(** [req.query?.userId || req.query?.user_id || req.body?.userId || req.body?.user_id] *)
Definition rawUserId (req : UploadRequest) : option string :=
  Js.or_undef
    (Js.or_undef (Js.or_undef (query_userId req) (query_user_id req))
                 (body_userId req))
    (body_user_id req).

(** [rawUserId] is truthy. *)
Definition supplied (raw : option string) : option string :=
  match raw with
  | Some s => if Js.truthy s then Some s else None
  | None => None
  end.

(** [(rawUserId || randomUUID()).toString().replace(/\//g, '-')]; the UUID
    is only drawn when [rawUserId] is falsy. *)
Definition userId (raw : option string) : M string :=
  (let! id := match supplied raw with
              | Some s => ret s
              | None => randomUUID
              end in
   ret (Js.replace_slashes id))%js.

(** [path.extname(req.file.originalname) || '.jpg'] *)
Definition ext (file : File) : string :=
  Js.or_else (Path.extname (originalname file)) ".jpg".

(** [`${PROFILE_PREFIX}/${userId}${ext}`] *)
Definition key (userId ext : string) : string :=
  PROFILE_PREFIX +:+ "/" +:+ userId +:+ ext.

(** The content type sent with the put. *)
Definition mime (mimetype ext : string) : string :=
  if Js.truthy mimetype && Js.starts_with "image/" mimetype
  then mimetype
  else if String.eqb ext ".png" then "image/png"
  else if String.eqb ext ".gif" then "image/gif"
  else if String.eqb ext ".webp" then "image/webp"
  else "image/jpeg".

(** The public URL when [S3_PUBLIC_BASE_URL] is truthy, a presigned one
    otherwise. *)
Definition url (key : string) : M string :=
  match S3_PUBLIC_BASE_URL env with
  | Some baseUrl =>
      if Js.truthy baseUrl
      then ret (Js.strip_trailing_slash baseUrl +:+ "/" +:+ key)
      else getSignedUrl BUCKET key (60 * 60 * 24 * 6)
  | None => getSignedUrl BUCKET key (60 * 60 * 24 * 6)
  end.

Definition dquote : string := String (ascii_of_N 34) EmptyString.

Definition no_file_uploaded : string :=
  "No file uploaded. Use field name " +:+ dquote +:+ "file" +:+ dquote +:+ ".".

(** The handler of [POST /api/upload/profile-pic], after multer has set
    [req.file].  The [console.log] lines are left out. *)
Definition upload_handler (req : UploadRequest) (req_file : option File)
  : M Response :=
  try_catch
    (match req_file with
     | None => ret {| status := 400; json := JError no_file_uploaded |}
     | Some file =>
         (let! userId := userId (rawUserId req) in
          let ext := ext file in
          let key := key userId ext in
          let mime := mime (mimetype file) ext in
          do! send_put BUCKET key
                {| Body := buffer file;
                   ContentType := mime;
                   CacheControl := "public, max-age=31536000" |} in
          let! url := url key in
          ret {| status := 201; json := JUploaded url key |})%js
     end)
    (fun err =>
       ret {| status := 500;
              json := JError (Js.or_else (message err) "Upload failed") |}).

(** A handler's run ends in the response it sent; an error that reaches
    [next] is answered by the error middleware. *)
Definition respond (m : M Response) (w : World) : Response * World :=
  match m w with
  | (inr r, w') => (r, w')
  | (inl e, w') => (error_middleware e, w')
  end.

(** [app.post('/api/upload/profile-pic', upload.single('file'), handler)] *)
Definition post_upload (req : UploadRequest) (w : World) : Response * World :=
  match upload_single (file_part req) with
  | inl err => (error_middleware err, w)
  | inr req_file => respond (upload_handler req req_file) w
  end.

(** [GET /api/profile-pics] *)
Definition list_handler : M Response :=
  try_catch
    (let! list := send_list BUCKET (PROFILE_PREFIX +:+ "/") 100 in
     let baseUrl :=
       Js.strip_trailing_slash
         (match S3_PUBLIC_BASE_URL env with
          | Some b => Js.or_else b EmptyString
          | None => EmptyString
          end) in
     let items :=
       map (fun o =>
              let key := Key o in
              let url := if Js.truthy baseUrl
                         then Some (baseUrl +:+ "/" +:+ key)
                         else None in
              {| item_key := key; item_size := Size o;
                 item_lastModified := LastModified o; item_url := url |})
           (match list with Some contents => contents | None => [] end) in
     ret {| status := 200;
            json := JList PROFILE_PREFIX (Z.of_nat (List.length items)) items |})%js
    (fun err =>
       ret {| status := 500;
              json := JError (Js.or_else (message err) "Failed to list") |}).

Definition get_profile_pics (w : World) : Response * World :=
  respond list_handler w.

(** [GET /api/profile-pic/:key], the key taking the rest of the path;
    [param] is [req.params.key]. *)
Definition url_handler (param : string) : M Response :=
  try_catch
    (let! key := match Uri.decodeURIComponent param with
                 | Some k => ret k
                 | None => throw (Error "URI malformed")
                 end in
     let! url := getSignedUrl BUCKET key 3600 in
     ret {| status := 200; json := JUrl url |})%js
    (fun err =>
       ret {| status := 500;
              json := JError (Js.or_else (message err) "Failed to get URL") |}).

Definition get_profile_pic (param : string) (w : World) : Response * World :=
  respond (url_handler param) w.

End Server.

(** ** The second variant of the upload handler (embedded in README.md)

    It requires an identifier, leaves the extension out of the key and
    lower-cases it for the content type only. *)

Module Variant2.

(** [rawUserId.toString().replace(/\//g, '-')] *)
Definition userId (rawUserId : string) : string := Js.replace_slashes rawUserId.

(** [`${PROFILE_PREFIX}/${userId}`] *)
Definition key (env : Env) (userId : string) : string :=
  PROFILE_PREFIX env +:+ "/" +:+ userId.

(** [(path.extname(req.file.originalname) || '').toLowerCase()] *)
Definition ext (file : File) : string :=
  Js.toLowerCase (Js.or_else (Path.extname (originalname file)) EmptyString).

End Variant2.

(** ** Derived notions used in the statements *)

(** A truthy [S3_PUBLIC_BASE_URL]: the static mode of the upload route. *)
Definition public_base (env : Env) : option string :=
  supplied (S3_PUBLIC_BASE_URL env).

(** The base URL of the listing route: the variable with one trailing slash
    dropped, when what is left is truthy. *)
Definition listing_base (env : Env) : option string :=
  supplied (Some (Js.strip_trailing_slash
                    (match S3_PUBLIC_BASE_URL env with
                     | Some b => Js.or_else b EmptyString
                     | None => EmptyString
                     end))).

(** [list.Contents || []] *)
Definition contents_or_empty (contents : option (list Listed)) : list Listed :=
  match contents with Some l => l | None => [] end.

(** The two ways the error middleware recognises a rejected upload. *)
Inductive Kind : Type := UnsupportedMediaType | PayloadTooLarge.

Definition kind (err : JsError) : option Kind :=
  match err with
  | MulterError code _ =>
      if String.eqb code "LIMIT_FILE_SIZE" then Some PayloadTooLarge
      else if Js.includes "Only images" (message err)
           then Some UnsupportedMediaType else None
  | Error m =>
      if Js.includes "Only images" m then Some UnsupportedMediaType else None
  end.

(** The keys of the puts in a call log, and the lifetimes of the signing
    requests in it. *)
Definition put_keys (cs : list Call) : list (string * string) :=
  omap (fun c => match c with
                 | PutObject b k _ => Some (b, k)
                 | _ => None
                 end) cs.

Definition sign_lifetimes (cs : list Call) : list Z :=
  omap (fun c => match c with
                 | GetSignedUrl _ _ t => Some t
                 | _ => None
                 end) cs.

(** How many UUIDs a call log has drawn. *)
Definition is_uuid_draw (c : Call) : bool :=
  match c with RandomUUID => true | _ => false end.

Definition uuid_draws (cs : list Call) : nat :=
  List.length (List.filter is_uuid_draw cs).

(** The textual shape of a version-4 UUID as [crypto.randomUUID] prints it:
    36 characters, hyphens at offsets 8, 13, 18 and 23, lower-case
    hexadecimal digits elsewhere. *)
Definition is_hex_lower (c : ascii) : bool :=
  let n := N_of_ascii c in
  ((48 <=? n)%N && (n <=? 57)%N) || ((97 <=? n)%N && (n <=? 102)%N).

Fixpoint uuid_shape (i : nat) (s : string) : bool :=
  match s with
  | EmptyString => Nat.eqb i 36
  | String c r =>
      (if Nat.eqb i 8 || Nat.eqb i 13 || Nat.eqb i 18 || Nat.eqb i 23
       then Ascii.eqb c "-" else is_hex_lower c)
      && uuid_shape (S i) r
  end.

Definition is_uuid (s : string) : bool := uuid_shape 0 s.

(** ** The specification's wording, for comparison with the code *)

Module Spec.

Inductive Verdict : Type := Accept | Reject (k : Kind).

(** Section 4.1, the first three bullets. *)
Definition validate_type (declaredType filename : string) : Verdict :=
  if existsb (String.eqb (Js.toLowerCase declaredType))
       ["image/jpeg"; "image/jpg"; "image/pjpeg"; "image/png"; "image/gif";
        "image/webp"]
  then Accept
  else if existsb (String.eqb (Js.toLowerCase (Path.extname filename)))
            [".jpg"; ".jpeg"; ".png"; ".gif"; ".webp"]
  then Accept
  else Reject UnsupportedMediaType.

(** Section 4.2: the extension lower-cased, [.jpg] when there is none. *)
Definition extension (filename : string) : string :=
  match Path.extname filename with
  | EmptyString => ".jpg"
  | e => Js.toLowerCase e
  end.

Definition deriveKey (identifier filename prefix : string) : string :=
  prefix +:+ "/" +:+ identifier +:+ extension filename.

(** Section 4.3; [extension] is the file name's own, empty when it has
    none. *)
Definition resolveMime (declaredType extension : string) : string :=
  if Js.starts_with "image/" declaredType then declaredType
  else if String.eqb extension ".png" then "image/png"
  else if String.eqb extension ".gif" then "image/gif"
  else if String.eqb extension ".webp" then "image/webp"
  else "image/jpeg".

(** Section 9: the first present value of an ordered list of sources. *)
Fixpoint first_present (sources : list (option string)) : option string :=
  match sources with
  | [] => None
  | Some s :: rest => if Js.truthy s then Some s else first_present rest
  | None :: rest => first_present rest
  end.

End Spec.

(** ** Sample surroundings for the concrete runs *)

Definition sample_env : Env :=
  {| S3_BUCKET := "sriaas-profile-pics";
     S3_PROFILE_PREFIX := None;
     S3_PUBLIC_BASE_URL := None |}.

Definition public_env : Env :=
  {| S3_BUCKET := "sriaas-profile-pics";
     S3_PROFILE_PREFIX := None;
     S3_PUBLIC_BASE_URL := Some "https://sriaas-profile-pics.s3.amazonaws.com" |}.

(** A base URL that is nothing but a slash. *)
Definition slash_env : Env :=
  {| S3_BUCKET := "sriaas-profile-pics";
     S3_PROFILE_PREFIX := None;
     S3_PUBLIC_BASE_URL := Some "/" |}.

Definition sample_uuid : string := "3b241101-e2bb-4255-8caf-4136c566a962".

(** Every call succeeds; a presigned URL carries its lifetime. *)
Definition signing_service : Service :=
  {| put_error := fun _ _ _ _ => None;
     list_reply := fun _ _ _ _ => inr None;
     sign_reply := fun _ bucket key expiresIn =>
       inr ("https://" +:+ bucket +:+ ".s3.amazonaws.com/" +:+ key
            +:+ (if expiresIn =? 3600 then "?X-Amz-Expires=3600"
                 else "?X-Amz-Expires=518400"));
     uuid_reply := fun _ => sample_uuid |}.

(** Puts succeed, the presigner rejects. *)
Definition unsigning_service : Service :=
  {| put_error := fun _ _ _ _ => None;
     list_reply := fun _ _ _ _ => inr None;
     sign_reply := fun _ _ _ _ => inl "Could not load credentials from any providers";
     uuid_reply := fun _ => sample_uuid |}.

Definition two_objects : list Listed :=
  [ {| Key := "profile-pics/u1.jpg"; Size := 4;
       LastModified := "2024-05-01T10:00:00.000Z" |};
    {| Key := "profile-pics/u2.png"; Size := 4;
       LastModified := "2024-05-02T10:00:00.000Z" |} ].

(** As [signing_service], with two objects under the prefix. *)
Definition listing_service : Service :=
  {| put_error := put_error signing_service;
     list_reply := fun _ _ _ _ => inr (Some two_objects);
     sign_reply := sign_reply signing_service;
     uuid_reply := uuid_reply signing_service |}.

Definition empty_world : World := {| objects := ∅; calls := [] |}.

Definition jpeg_bytes : list Byte.byte :=
  [Byte.xff; Byte.xd8; Byte.xff; Byte.xe0].

Definition small_jpg : File :=
  {| originalname := "test.jpg"; mimetype := "image/jpeg"; buffer := jpeg_bytes |}.

Definition a_png : File :=
  {| originalname := "a.png"; mimetype := "image/png"; buffer := jpeg_bytes |}.

Definition upper_png : File :=
  {| originalname := "A.PNG"; mimetype := "image/png"; buffer := jpeg_bytes |}.



Definition upload_of (userId : option string) (file : File) : UploadRequest :=
  {| query_userId := None; query_user_id := None;
     body_userId := userId; body_user_id := None;
     file_part := Some file |}.

Definition octet_png : File :=
  {| originalname := "pic.png"; mimetype := "application/octet-stream";
     buffer := jpeg_bytes |}.

Definition gid_request : UploadRequest :=
  upload_of (Some "gid://shopify/Customer/123") a_png.

Definition upper_request : UploadRequest := upload_of (Some "u1") upper_png.

Definition octet_request : UploadRequest := upload_of (Some "u1") octet_png.

Definition plain_request : UploadRequest := upload_of (Some "u1") small_jpg.

(** [?userId=] with nothing after the equals sign, and no other field. *)
Definition blank_request : UploadRequest :=
  {| query_userId := Some EmptyString; query_user_id := None;
     body_userId := None; body_user_id := None;
     file_part := Some small_jpg |}.

(** An identifier field that is missing or the empty string. *)
Definition absent_or_empty (field : option string) : Prop :=
  field = None \/ field = Some EmptyString.

(** ** The stages of one run of the upload handler

    The handler is straight-line code; these are the values and the worlds
    it goes through on the request [req] with buffered file [file], started
    in world [w]. *)

Section UploadStages.

Variable env : Env.
Variable svc : Service.
Variable req : UploadRequest.
Variable file : File.
Variable w : World.

(** [rawUserId || randomUUID()] *)
Definition identifier : string :=
  match supplied (rawUserId req) with
  | Some s => s
  | None => uuid_reply svc w
  end.

Definition after_identifier : World :=
  match supplied (rawUserId req) with
  | Some _ => w
  | None => logged RandomUUID w
  end.

(** The handler's [key]. *)
Definition derived_key : string :=
  key env (Js.replace_slashes identifier) (ext file).

(** The object of the [PutObjectCommand]. *)
Definition put_object : S3Object :=
  {| Body := buffer file;
     ContentType := mime (mimetype file) (ext file);
     CacheControl := "public, max-age=31536000" |}.

Definition put_sent : World :=
  logged (PutObject (BUCKET env) derived_key put_object) after_identifier.

Definition put_done : World :=
  {| objects := <[(BUCKET env, derived_key) := put_object]> (objects put_sent);
     calls := calls put_sent |}.

Definition sign_sent : World :=
  logged (GetSignedUrl (BUCKET env) derived_key (60 * 60 * 24 * 6)) put_done.

End UploadStages.

Definition failed (msg fallback : string) : Response :=
  {| status := 500; json := JError (Js.or_else msg fallback) |}.

Definition uploaded (url key : string) : Response :=
  {| status := 201; json := JUploaded url key |}.

(** ** Start-up: the required environment

    [process.env] as a dictionary.  The loop over [requiredEnv] stops the
    process at the first variable that is unset or empty. *)

Definition requiredEnv : list string :=
  ["AWS_ACCESS_KEY_ID"; "AWS_SECRET_ACCESS_KEY"; "AWS_REGION"; "S3_BUCKET"].

(** [!process.env[key]] *)
Definition env_missing (penv : gmap string string) (key : string) : bool :=
  match penv !! key with
  | Some v => negb (Js.truthy v)
  | None => true
  end.

(** [for (const key of requiredEnv) { if (!process.env[key]) { ...exit(1) } }];
    [Some key] is the variable named in the message before the exit. *)
Fixpoint check_required (penv : gmap string string) (keys : list string)
  : option string :=
  match keys with
  | [] => None
  | key :: rest =>
      if env_missing penv key then Some key else check_required penv rest
  end.

Definition startup (penv : gmap string string) : option string :=
  check_required penv requiredEnv.

(** [process.env.PORT || 4000]: the variable's text, or the number. *)
Definition PORT (penv : gmap string string) : string + Z :=
  match penv !! "PORT" with
  | Some p => if Js.truthy p then inl p else inr 4000
  | None => inr 4000
  end.

(** What the handlers read of [process.env].  [S3_BUCKET] is only read
    after the start-up check, which makes it a non-empty string. *)
Definition env_of (penv : gmap string string) : Env :=
  {| S3_BUCKET := default EmptyString (penv !! "S3_BUCKET");
     S3_PROFILE_PREFIX := penv !! "S3_PROFILE_PREFIX";
     S3_PUBLIC_BASE_URL := penv !! "S3_PUBLIC_BASE_URL" |}.

(** ** The upload route of the second variant (README.md) *)

Module Variant2Route.

Definition missing_userId : string := "Missing userId (Shopify customer ID).".

Section Route.

Variable env : Env.
Variable svc : Service.

(** The handler: an identifier is required, the key has no extension, the
    object is stored with [no-store]. *)
Definition upload_handler (req : UploadRequest) (req_file : option File)
  : M Response :=
  try_catch
    (match req_file with
     | None => ret {| status := 400; json := JError no_file_uploaded |}
     | Some file =>
         match supplied (rawUserId req) with
         | None => ret {| status := 400; json := JError missing_userId |}
         | Some rawUserId =>
             (let userId := Variant2.userId rawUserId in
              let key := Variant2.key env userId in
              let ext := Variant2.ext file in
              let mime := mime (mimetype file) ext in
              do! send_put svc (BUCKET env) key
                    {| Body := buffer file;
                       ContentType := mime;
                       CacheControl := "no-store, max-age=0" |} in
              let! url := url env svc key in
              ret {| status := 201; json := JUploaded url key |})%js
         end
     end)
    (fun err =>
       ret {| status := 500;
              json := JError (Js.or_else (message err) "Upload failed") |}).

Definition post_upload (req : UploadRequest) (w : World) : Response * World :=
  match upload_single (file_part req) with
  | inl err => (error_middleware err, w)
  | inr req_file => respond (upload_handler req req_file) w
  end.

End Route.

(** The object the second variant puts for [file]. *)
Definition put_object (file : File) : S3Object :=
  {| Body := buffer file;
     ContentType := mime (mimetype file) (Variant2.ext file);
     CacheControl := "no-store, max-age=0" |}.

End Variant2Route.

(** ** The test script (test-api.js) *)

Module TestApi.

(** [new Blob(['fake image content'], { type: 'image/jpeg' })], appended as
    [test.jpg]. *)
Definition blob : File :=
  {| originalname := "test.jpg";
     mimetype := "image/jpeg";
     buffer := list_byte_of_string "fake image content" |}.

(** The form of [testUpload]: the file and [userId = 'test-user-' +
    Date.now()]; [now] is the clock's reading. *)
Definition form (now : N) : UploadRequest :=
  {| query_userId := None; query_user_id := None;
     body_userId := Some ("test-user-" +:+ pretty now); body_user_id := None;
     file_part := Some blob |}.

(** [res.ok] *)
Definition ok (res : Response) : bool :=
  (200 <=? status res) && (status res <=? 299).

(** [data?.ok] *)
Definition data_ok (data : Json) : bool :=
  match data with JHealth => true | _ => false end.

(** [data?.url], as a condition *)
Definition data_url (data : Json) : bool :=
  match data with
  | JUploaded url _ => Js.truthy url
  | JUrl url => Js.truthy url
  | _ => false
  end.

(** [testHealth] and [testUpload]: [true] when the function returns,
    [false] when it throws. *)
Definition testHealth (res : Response) : bool := data_ok (json res).

Definition testUpload (res : Response) : bool := ok res && data_url (json res).

(** The script against the server: both checks in turn. *)
Definition run (env : Env) (svc : Service) (now : N) (w : World) : bool :=
  testHealth get_health
  && testUpload (fst (post_upload env svc (form now) w)).

End TestApi.

(** ** Further notions used in the statements *)

(** [path.extname]'s loop keeps the stretch from the current position to
    the recorded end free of slashes, and has recorded an end as soon as it
    no longer skips trailing slashes. *)
Definition slash_free (chars : list ascii) (m : nat) (st : Path.scan) : Prop :=
  (Path.matchedSlash st = true -> Path.end_ st = -1) /\
  (Path.startDot st = -1 \/ Z.of_nat m <= Path.startDot st) /\
  (Path.end_ st = -1 \/
   forall j : nat, (m <= j)%nat -> Z.of_nat j < Path.end_ st ->
                   chars !! j <> Some "/"%char).

(** Two requests to the upload route, one after the other. *)
Definition post_upload_twice (env : Env) (svc : Service)
    (req1 req2 : UploadRequest) (w : World) : Response * Response * World :=
  let '(r1, w1) := post_upload env svc req1 w in
  let '(r2, w2) := post_upload env svc req2 w1 in
  (r1, r2, w2).

Definition variant2_twice (env : Env) (svc : Service)
    (req1 req2 : UploadRequest) (w : World) : Response * Response * World :=
  let '(r1, w1) := Variant2Route.post_upload env svc req1 w in
  let '(r2, w2) := Variant2Route.post_upload env svc req2 w1 in
  (r1, r2, w2).

(** The calls one request to the upload route makes, in order. *)
Definition upload_calls (env : Env) (svc : Service) (req : UploadRequest)
    (w : World) : list Call :=
  match upload_single (file_part req) with
  | inr (Some file) =>
      match supplied (rawUserId req) with Some _ => [] | None => [RandomUUID] end
      ++ PutObject (BUCKET env) (derived_key env svc req file w) (put_object file)
      :: match put_error svc (after_identifier req w) (BUCKET env)
                         (derived_key env svc req file w) (put_object file),
               public_base env with
         | None, None =>
             [GetSignedUrl (BUCKET env) (derived_key env svc req file w)
                           (60 * 60 * 24 * 6)]
         | _, _ => []
         end
  | _ => []
  end.

(** Sample surroundings for the further runs. *)
Definition full_env : gmap string string :=
  <["AWS_ACCESS_KEY_ID" := "AKIAEXAMPLE"]>
  (<["AWS_SECRET_ACCESS_KEY" := "secret"]>
   (<["AWS_REGION" := "ap-south-1"]>
    (<["S3_BUCKET" := "sriaas-profile-pics"]> ∅))).

Definition jpg_request : UploadRequest :=
  upload_of (Some "u1") small_jpg.

Definition png_request : UploadRequest :=
  upload_of (Some "u1") a_png.

Definition sanitized_gid_request : UploadRequest :=
  upload_of (Some "gid:--shopify-Customer-123") a_png.


(** The put is refused. *)
Definition refusing_service : Service :=
  {| put_error := fun _ _ _ _ => Some "Access Denied";
     list_reply := fun _ _ _ _ => inl "Access Denied";
     sign_reply := sign_reply signing_service;
     uuid_reply := uuid_reply signing_service |}.

(** * Properties *)

(** ** [path.extname] on sample file names *)

Example extname_png : Path.extname "a.png" = ".png".
Proof. reflexivity. Qed.

Example extname_upper : Path.extname "A.PNG" = ".PNG".
Proof. reflexivity. Qed.

Example extname_last_dot : Path.extname "index.coffee.md" = ".md".
Proof. reflexivity. Qed.

Example extname_trailing_dot : Path.extname "index." = ".".
Proof. reflexivity. Qed.

Example extname_none : Path.extname "index" = EmptyString.
Proof. reflexivity. Qed.

Example extname_dotfile : Path.extname ".index" = EmptyString.
Proof. reflexivity. Qed.

Example extname_dotfile_ext : Path.extname ".index.md" = ".md".
Proof. reflexivity. Qed.

Example extname_dotdot : Path.extname ".." = EmptyString.
Proof. reflexivity. Qed.

Example extname_dir : Path.extname "a.b/c" = EmptyString.
Proof. reflexivity. Qed.

Example extname_trailing_slash : Path.extname "a.b/" = ".b".
Proof. reflexivity. Qed.

Example decode_plain : Uri.decodeURIComponent "profile-pics/u1.jpg" = Some "profile-pics/u1.jpg".
Proof. reflexivity. Qed.

Example decode_slash : Uri.decodeURIComponent "profile-pics%2Fu1.jpg" = Some "profile-pics/u1.jpg".
Proof. reflexivity. Qed.

Example decode_malformed : Uri.decodeURIComponent "100%" = None.
Proof. reflexivity. Qed.

Example decode_lone_continuation : Uri.decodeURIComponent "%80" = None.
Proof. reflexivity. Qed.

(** ** Strings *)

Lemma string_eqb_cons a b s t :
  String.eqb (String a s) (String b t) = Ascii.eqb a b && String.eqb s t.
Proof. simpl. destruct (Ascii.eqb a b); reflexivity. Qed.

Lemma ci_eqb_lower p s :
  Js.ci_eqb p s = String.eqb (Js.toLowerCase p) (Js.toLowerCase s).
Proof.
  revert s. induction p as [|a p IH]; intros [|b s]; try reflexivity.
  cbn [Js.ci_eqb Js.toLowerCase]. rewrite string_eqb_cons, IH. reflexivity.
Qed.

(** A case-insensitive literal prefix followed by a case-insensitive
    literal to the end is a comparison of the lower-cased strings. *)
Lemma ci_prefix_then_literal p alt s :
  match Js.ci_strip_prefix p s with
  | Some sub => Js.ci_eqb alt sub
  | None => false
  end = String.eqb (Js.toLowerCase (p +:+ alt)) (Js.toLowerCase s).
Proof.
  revert s. induction p as [|a p IH]; intros s.
  - apply ci_eqb_lower.
  - destruct s as [|b s]; [reflexivity|].
    change (String a p +:+ alt) with (String a (p +:+ alt)).
    cbn [Js.ci_strip_prefix Js.toLowerCase].
    rewrite string_eqb_cons. unfold Js.ci_char_eqb.
    destruct (Ascii.eqb (Js.lower_char a) (Js.lower_char b)); [apply IH | reflexivity].
Qed.

(** The regular expression of the filter accepts exactly the strings whose
    lower-cased form is one of the six listed content types. *)
Lemma allowedMime_test_lower s :
  allowedMime_test s =
  existsb (String.eqb (Js.toLowerCase s))
    ["image/jpeg"; "image/jpg"; "image/pjpeg"; "image/png"; "image/gif";
     "image/webp"].
Proof.
  unfold allowedMime_test.
  pose proof (fun alt => ci_prefix_then_literal "image/" alt s) as H.
  destruct (Js.ci_strip_prefix "image/" s) as [sub|].
  - cbn [existsb]. rewrite !H.
    rewrite !(String.eqb_sym (Js.toLowerCase s)). reflexivity.
  - cbn [existsb].
    rewrite !(String.eqb_sym (Js.toLowerCase s)).
    pose proof (H "jpeg") as H1. pose proof (H "jpg") as H2.
    pose proof (H "pjpeg") as H3. pose proof (H "png") as H4.
    pose proof (H "gif") as H5. pose proof (H "webp") as H6.
    change (Js.toLowerCase ("image/" +:+ "jpeg")) with "image/jpeg" in H1.
    change (Js.toLowerCase ("image/" +:+ "jpg")) with "image/jpg" in H2.
    change (Js.toLowerCase ("image/" +:+ "pjpeg")) with "image/pjpeg" in H3.
    change (Js.toLowerCase ("image/" +:+ "png")) with "image/png" in H4.
    change (Js.toLowerCase ("image/" +:+ "gif")) with "image/gif" in H5.
    change (Js.toLowerCase ("image/" +:+ "webp")) with "image/webp" in H6.
    rewrite <- H1, <- H2, <- H3, <- H4, <- H5, <- H6. reflexivity.
Qed.

Lemma or_else_empty s : Js.or_else s EmptyString = s.
Proof. destruct s; reflexivity. Qed.

(** ** The upload filter *)

(** C1. The filter accepts when the declared content type, compared without
    regard to case, is one of image/jpeg, jpg, pjpeg, png, gif, webp;
    otherwise it accepts when the lower-cased extension of the original
    file name is one of .jpg .jpeg .png .gif .webp; otherwise it rejects,
    and the rejection reaches the client as a 400 whose message contains
    'Only images', nothing else having happened. *)
Theorem C1_fileFilter_decision (file : File) :
  match Spec.validate_type (mimetype file) (originalname file) with
  | Spec.Accept => fileFilter file = cb None true
  | Spec.Reject k =>
      k = UnsupportedMediaType /\
      exists err,
        fileFilter file = cb (Some err) false /\
        kind err = Some UnsupportedMediaType /\
        Js.includes "Only images" (message err) = true /\
        error_middleware err = {| status := 400; json := JError (message err) |} /\
        forall env svc req w,
          file_part req = Some file ->
          post_upload env svc req w = (error_middleware err, w)
  end.
Proof.
  assert (Hff : fileFilter file =
                match Spec.validate_type (mimetype file) (originalname file) with
                | Spec.Accept => cb None true
                | Spec.Reject _ => cb (Some (Error only_images)) false
                end).
  { unfold Spec.validate_type, fileFilter, allowedExt_includes, allowedExt.
    rewrite allowedMime_test_lower, !or_else_empty.
    destruct (existsb _ _); [reflexivity|].
    destruct (existsb _ _); reflexivity. }
  destruct (Spec.validate_type _ _) as [|k] eqn:Hv; [exact Hff|].
  split.
  { unfold Spec.validate_type in Hv.
    repeat match type of Hv with
           | (if ?b then _ else _) = _ => destruct b
           end; congruence. }
  exists (Error only_images). repeat split; [exact Hff|].
  intros env svc req w Hf. unfold post_upload, upload_single.
  rewrite Hf, Hff. reflexivity.
Qed.

(** ** One run of the upload handler *)

(** The handler's straight-line code, executed symbolically. *)
Lemma upload_handler_run env svc req file w :
  let k := derived_key env svc req file w in
  upload_handler env svc req (Some file) w =
  match put_error svc (after_identifier req w) (BUCKET env) k
                  (put_object file) with
  | Some msg => (inr (failed msg "Upload failed"), put_sent env svc req file w)
  | None =>
      match public_base env with
      | Some baseUrl =>
          (inr (uploaded (Js.strip_trailing_slash baseUrl +:+ "/" +:+ k) k),
           put_done env svc req file w)
      | None =>
          match sign_reply svc (put_done env svc req file w) (BUCKET env) k
                           (60 * 60 * 24 * 6) with
          | inl msg =>
              (inr (failed msg "Upload failed"), sign_sent env svc req file w)
          | inr u => (inr (uploaded u k), sign_sent env svc req file w)
          end
      end
  end.
Proof.
  unfold sign_sent, put_done, put_sent, put_object, derived_key,
    after_identifier, identifier, failed, uploaded. cbv zeta.
  unfold upload_handler, userId, url, public_base, send_put, getSignedUrl,
    randomUUID, try_catch, bind, ret.
  destruct (supplied (rawUserId req)) as [s|]; cbv beta iota;
    (destruct (put_error svc _ _ _ _) as [msg|]; cbv beta iota; [reflexivity|]);
    unfold supplied;
    (destruct (S3_PUBLIC_BASE_URL env) as [b|];
     [destruct (Js.truthy b); cbv beta iota; [reflexivity|] |]);
    (destruct (sign_reply svc _ _ _ _); reflexivity).
Qed.

(** ** [path.extname] returns nothing or a suffix that starts with a dot *)

Module PathFacts.

Import Path.

Lemma dot_ok_weaken chars m st : dot_ok chars m st -> dot_ok chars 0 st.
Proof.
  intros [He [H|[H1 H2]]]; (split; [lia|]); [left|right]; auto.
  split; [lia|exact H2].
Qed.

Lemma dot_ok_down chars m st : dot_ok chars (S m) st -> dot_ok chars m st.
Proof.
  intros [He [H|[H1 H2]]]; (split; [lia|]); [left|right]; auto.
  split; [lia|exact H2].
Qed.

Ltac scan_fields := cbn [startDot end_ preDotState matchedSlash startPart].

Lemma extname_loop_dot_ok r :
  forall suf st,
    dot_ok (rev r ++ suf) (List.length r) st ->
    dot_ok (rev r ++ suf) 0
           (extname_loop r (Z.of_nat (List.length r) - 1) st).
Proof.
  induction r as [|c r IH]; intros suf st Hst.
  - exact Hst.
  - cbn [extname_loop].
    replace (Z.of_nat (List.length (c :: r)) - 1) with (Z.of_nat (List.length r))
      by (cbn [List.length]; lia).
    assert (Hi : (rev (c :: r) ++ suf) !! Z.to_nat (Z.of_nat (List.length r)) = Some c).
    { rewrite Nat2Z.id. cbn [rev]. rewrite <- app_assoc.
      rewrite lookup_app_r by (rewrite length_rev; lia).
      rewrite length_rev, Nat.sub_diag. reflexivity. }
    assert (Hstep : forall st',
      dot_ok (rev (c :: r) ++ suf) (List.length r) st' ->
      dot_ok (rev (c :: r) ++ suf) 0
        (extname_loop r (Z.of_nat (List.length r) - 1) st')).
    { intros st' H'. cbn [rev]. rewrite <- app_assoc. apply IH.
      rewrite app_assoc. exact H'. }
    assert (Hdown : dot_ok (rev (c :: r) ++ suf) (List.length r) st)
      by (apply dot_ok_down; exact Hst).
    destruct (Ascii.eqb c "/") eqn:Hslash.
    { destruct (negb (matchedSlash st)).
      - apply dot_ok_weaken in Hst. exact Hst.
      - apply Hstep, Hdown. }
    apply Hstep. clear Hstep IH Hst.
    destruct Hdown as [He Hd].
    destruct (Ascii.eqb c ".") eqn:Hdot.
    + apply Ascii.eqb_eq in Hdot. subst c.
      destruct (end_ st =? -1) eqn:E; scan_fields;
        [apply Z.eqb_eq in E|apply Z.eqb_neq in E];
        (destruct (startDot st =? -1) eqn:S0;
         [apply Z.eqb_eq in S0|apply Z.eqb_neq in S0]);
        try (destruct (negb (preDotState st =? 1)));
        unfold dot_ok; scan_fields;
        (split; [lia|]);
        try (right; split; [lia|exact Hi]);
        (destruct Hd as [Hd|[Hd1 Hd2]]; [lia|]);
        try lia; right; (split; [lia|exact Hd2]).
    + destruct (end_ st =? -1) eqn:E; scan_fields;
        [apply Z.eqb_eq in E|apply Z.eqb_neq in E];
        (destruct (startDot st =? -1) eqn:S0;
         [apply Z.eqb_eq in S0|apply Z.eqb_neq in S0]);
        cbn [negb]; unfold dot_ok; scan_fields;
        (split; [lia|]);
        try (left; lia);
        (destruct Hd as [Hd|[Hd1 Hd2]]; [lia|]);
        try lia; right; (split; [lia|exact Hd2]).
Qed.

Lemma substring_head s :
  forall n m c,
    list_ascii_of_string s !! n = Some c ->
    exists rest, String.substring n (S m) s = String c rest.
Proof.
  induction s as [|a s IH]; intros n m c H; [discriminate|].
  destruct n as [|n].
  - cbn in H. injection H as ->. cbn [String.substring]. eauto.
  - cbn [list_ascii_of_string] in H. cbn [String.substring].
    apply (IH n m c). exact H.
Qed.

(** The extension is empty or begins with the dot. *)
Lemma extname_leading_dot path :
  extname path = EmptyString \/ exists rest, extname path = String "." rest.
Proof.
  unfold extname.
  set (chars := list_ascii_of_string path).
  pose proof (extname_loop_dot_ok (rev chars) [] scan0) as H.
  rewrite rev_involutive, app_nil_r, length_rev in H.
  set (st := extname_loop _ _ _) in *.
  destruct ((startDot st =? -1) || _ || _ || _) eqn:C; [left; reflexivity|right].
  apply orb_false_elim in C as [C _].
  apply orb_false_elim in C as [C _].
  apply orb_false_elim in C as [C1 C2].
  apply Z.eqb_neq in C1, C2.
  destruct H as [_ [H|[H1 H2]]].
  { split; [left; reflexivity|left; reflexivity]. }
  { lia. }
  replace (Z.to_nat (end_ st - startDot st))
    with (S (Z.to_nat (end_ st - startDot st - 1))) by lia.
  eapply substring_head. exact H2.
Qed.

End PathFacts.

(** ** One request to the upload route *)

(** The whole route, executed symbolically: multer first, then the
    handler. *)
Lemma post_upload_run env svc req w :
  post_upload env svc req w =
  match upload_single (file_part req) with
  | inl err => (error_middleware err, w)
  | inr None => ({| status := 400; json := JError no_file_uploaded |}, w)
  | inr (Some file) =>
      let k := derived_key env svc req file w in
      match put_error svc (after_identifier req w) (BUCKET env) k
                      (put_object file) with
      | Some msg => (failed msg "Upload failed", put_sent env svc req file w)
      | None =>
          match public_base env with
          | Some baseUrl =>
              (uploaded (Js.strip_trailing_slash baseUrl +:+ "/" +:+ k) k,
               put_done env svc req file w)
          | None =>
              match sign_reply svc (put_done env svc req file w) (BUCKET env) k
                               (60 * 60 * 24 * 6) with
              | inl msg => (failed msg "Upload failed", sign_sent env svc req file w)
              | inr u => (uploaded u k, sign_sent env svc req file w)
              end
          end
      end
  end.
Proof.
  unfold post_upload.
  destruct (upload_single (file_part req)) as [err|[file|]]; [reflexivity| |reflexivity].
  unfold respond. rewrite upload_handler_run. cbv zeta.
  destruct (put_error svc _ _ _ _); [reflexivity|].
  destruct (public_base env); [reflexivity|].
  destruct (sign_reply svc _ _ _ _); reflexivity.
Qed.

Lemma put_keys_app cs ds : put_keys (cs ++ ds) = put_keys cs ++ put_keys ds.
Proof. apply omap_app. Qed.

Lemma sign_lifetimes_app cs ds :
  sign_lifetimes (cs ++ ds) = sign_lifetimes cs ++ sign_lifetimes ds.
Proof. apply omap_app. Qed.

Lemma uuid_draws_app cs ds : uuid_draws (cs ++ ds) = (uuid_draws cs + uuid_draws ds)%nat.
Proof. unfold uuid_draws. rewrite List.filter_app, length_app. reflexivity. Qed.

(** The calls of an accepted upload: the UUID draw if no identifier was
    supplied, the put, and the signing request if the put succeeded and no
    public base URL is set. *)
Lemma post_upload_calls env svc req w file :
  upload_single (file_part req) = inr (Some file) ->
  calls (snd (post_upload env svc req w)) =
  calls w
  ++ match supplied (rawUserId req) with Some _ => [] | None => [RandomUUID] end
  ++ PutObject (BUCKET env) (derived_key env svc req file w) (put_object file)
  :: match put_error svc (after_identifier req w) (BUCKET env)
                     (derived_key env svc req file w) (put_object file),
           public_base env with
     | None, None =>
         [GetSignedUrl (BUCKET env) (derived_key env svc req file w) (60 * 60 * 24 * 6)]
     | _, _ => []
     end.
Proof.
  intros Hm. rewrite post_upload_run, Hm. cbv zeta.
  assert (Hid : calls (after_identifier req w) =
                calls w ++ match supplied (rawUserId req) with
                           | Some _ => [] | None => [RandomUUID] end).
  { unfold after_identifier. destruct (supplied (rawUserId req));
      [rewrite app_nil_r|]; reflexivity. }
  destruct (put_error svc _ _ _ _); [|destruct (public_base env);
    [|destruct (sign_reply svc _ _ _ _)]];
    cbn [snd]; unfold sign_sent, put_done, put_sent, logged; cbn [calls];
    rewrite Hid, <- ?app_assoc; reflexivity.
Qed.

(** An accepted upload makes exactly one put, under the derived key. *)
Lemma post_upload_put_keys env svc req w file :
  upload_single (file_part req) = inr (Some file) ->
  put_keys (calls (snd (post_upload env svc req w))) =
  put_keys (calls w) ++ [(BUCKET env, derived_key env svc req file w)].
Proof.
  intros Hfile.
  rewrite (post_upload_calls env svc req w file Hfile), !put_keys_app.
  f_equal.
  destruct (supplied (rawUserId req)), (put_error svc _ _ _ _), (public_base env);
    reflexivity.
Qed.

(** A 201 response reports the derived key. *)
Lemma post_upload_reported_key env svc req w file u k :
  upload_single (file_part req) = inr (Some file) ->
  fst (post_upload env svc req w) = uploaded u k ->
  k = derived_key env svc req file w.
Proof.
  intros Hfile. rewrite post_upload_run, Hfile. cbv zeta.
  destruct (put_error svc _ _ _ _); [discriminate|].
  destruct (public_base env); [intros [= _ <-]; reflexivity|].
  destruct (sign_reply svc _ _ _ _); [discriminate|].
  intros [= _ <-]. reflexivity.
Qed.

(** ** Key derivation *)

(** After the replacement no slash is left in the identifier segment. *)
Lemma replace_slashes_no_slash s :
  Js.includes "/" (Js.replace_slashes s) = false.
Proof.
  induction s as [|c s IH]; [reflexivity|].
  cbn [Js.replace_slashes Js.includes Js.starts_with]. rewrite IH.
  destruct (Ascii.eqb c "/") eqn:E; [reflexivity|].
  rewrite Ascii.eqb_sym, E. reflexivity.
Qed.

Lemma replace_slashes_length s :
  String.length (Js.replace_slashes s) = String.length s.
Proof. induction s as [|c s IH]; [reflexivity|]. cbn. rewrite IH. reflexivity. Qed.

(** C2. For a supplied (truthy) identifier the derived key is
    prefix/identifier-with-every-slash-replaced-by-a-hyphen followed by the
    extension; it depends neither on the collaborators nor on the world, no
    UUID is drawn, and every run puts under that same key and reports
    it. *)
Theorem C2_key_deterministic env req file raw
  (Hfile : upload_single (file_part req) = inr (Some file))
  (Hraw : supplied (rawUserId req) = Some raw) :
  forall svc w,
    derived_key env svc req file w =
      PROFILE_PREFIX env +:+ "/" +:+ Js.replace_slashes raw +:+ ext file /\
    Js.includes "/" (Js.replace_slashes raw) = false /\
    String.length (Js.replace_slashes raw) = String.length raw /\
    (forall svc' w',
        derived_key env svc' req file w' = derived_key env svc req file w) /\
    put_keys (calls (snd (post_upload env svc req w))) =
      put_keys (calls w) ++ [(BUCKET env, derived_key env svc req file w)] /\
    uuid_draws (calls (snd (post_upload env svc req w))) = uuid_draws (calls w) /\
    (forall u k, fst (post_upload env svc req w) = uploaded u k ->
                 k = derived_key env svc req file w).
Proof.
  intros svc w.
  assert (Hk : forall svc0 w0, derived_key env svc0 req file w0 =
      PROFILE_PREFIX env +:+ "/" +:+ Js.replace_slashes raw +:+ ext file).
  { intros. unfold derived_key, identifier, key. rewrite Hraw. reflexivity. }
  split; [apply Hk|]. split; [apply replace_slashes_no_slash|].
  split; [apply replace_slashes_length|].
  split; [intros; rewrite !Hk; reflexivity|].
  split; [apply post_upload_put_keys, Hfile|]. split.
  - rewrite (post_upload_calls env svc req w file Hfile), Hraw.
    rewrite uuid_draws_app. cbn [app].
    destruct (put_error svc _ _ _ _), (public_base env);
      unfold uuid_draws at 2; cbn; lia.
  - intros u k0. apply post_upload_reported_key, Hfile.
Qed.

Lemma C2_key_deterministic_witness :
  derived_key sample_env signing_service gid_request a_png empty_world =
    "profile-pics/gid:--shopify-Customer-123.png" /\
  Js.includes "/" (Js.replace_slashes "gid://shopify/Customer/123") = false /\
  String.length (Js.replace_slashes "gid://shopify/Customer/123") =
    String.length "gid://shopify/Customer/123" /\
  (forall svc' w',
      derived_key sample_env svc' gid_request a_png w' =
      derived_key sample_env signing_service gid_request a_png empty_world) /\
  put_keys (calls (snd (post_upload sample_env signing_service gid_request empty_world))) =
    put_keys (calls empty_world)
    ++ [(BUCKET sample_env,
         derived_key sample_env signing_service gid_request a_png empty_world)] /\
  uuid_draws (calls (snd (post_upload sample_env signing_service gid_request empty_world))) =
    uuid_draws (calls empty_world) /\
  (forall u k,
      fst (post_upload sample_env signing_service gid_request empty_world) = uploaded u k ->
      k = derived_key sample_env signing_service gid_request a_png empty_world).
Proof.
  exact (C2_key_deterministic sample_env gid_request a_png
           "gid://shopify/Customer/123" eq_refl eq_refl
           signing_service empty_world).
Defined.

(** The key of an upload whose file name has an upper-case extension keeps
    the extension as written, where the stated form lower-cases it. *)
Lemma C3_key_form_counterexample :
  fst (post_upload sample_env signing_service upper_request empty_world) =
    uploaded
      "https://sriaas-profile-pics.s3.amazonaws.com/profile-pics/u1.PNG?X-Amz-Expires=518400"
      "profile-pics/u1.PNG" /\
  Spec.deriveKey "u1" "A.PNG" "profile-pics" = "profile-pics/u1.png" /\
  derived_key sample_env signing_service upper_request upper_png empty_world <>
    Spec.deriveKey
      (Js.replace_slashes (identifier signing_service upper_request empty_world))
      (originalname upper_png) (PROFILE_PREFIX sample_env).
Proof.
  split; [reflexivity|]. split; [reflexivity|]. vm_compute. discriminate.
Qed.

Lemma ext_cases file :
  ext file = match Path.extname (originalname file) with
             | EmptyString => ".jpg"
             | e => e
             end.
Proof. unfold ext, Js.or_else. destruct (Path.extname _); reflexivity. Qed.

Lemma ext_leading_dot file : exists rest, ext file = String "." rest.
Proof.
  rewrite ext_cases.
  destruct (PathFacts.extname_leading_dot (originalname file)) as [->|[rest ->]]; eauto.
Qed.

(** C3, as the code has it. The derived key is prefix "/" identifier
    extension, where the identifier has its slashes replaced and the
    extension is the one path.extname finds in the original file name, dot
    included and in the case it was written in, or .jpg when it finds none.
    It is the key of the put and of the response, and it is the stated
    lower-cased form whenever the extension has no upper-case letter. *)
Theorem C3_key_form env svc req file w
  (Hfile : upload_single (file_part req) = inr (Some file)) :
  derived_key env svc req file w =
    PROFILE_PREFIX env +:+ "/"
    +:+ Js.replace_slashes (identifier svc req w) +:+ ext file /\
  ext file = match Path.extname (originalname file) with
             | EmptyString => ".jpg"
             | e => e
             end /\
  (exists rest, ext file = String "." rest) /\
  put_keys (calls (snd (post_upload env svc req w))) =
    put_keys (calls w) ++ [(BUCKET env, derived_key env svc req file w)] /\
  (forall u k, fst (post_upload env svc req w) = uploaded u k ->
               k = derived_key env svc req file w) /\
  (Js.toLowerCase (Path.extname (originalname file)) = Path.extname (originalname file) ->
   derived_key env svc req file w =
     Spec.deriveKey (Js.replace_slashes (identifier svc req w))
                    (originalname file) (PROFILE_PREFIX env)).
Proof.
  split; [reflexivity|]. split; [apply ext_cases|]. split; [apply ext_leading_dot|].
  split; [apply post_upload_put_keys, Hfile|]. split.
  - intros u k0. apply post_upload_reported_key, Hfile.
  - intros Hlow. unfold derived_key, key, Spec.deriveKey, Spec.extension.
    rewrite ext_cases. destruct (Path.extname _); [reflexivity|].
    rewrite Hlow. reflexivity.
Qed.

Lemma C3_key_form_witness :
  derived_key sample_env signing_service upper_request upper_png empty_world =
    "profile-pics/u1.PNG" /\
  ext upper_png = ".PNG" /\
  (exists rest, ext upper_png = String "." rest) /\
  put_keys (calls (snd (post_upload sample_env signing_service upper_request empty_world))) =
    [("sriaas-profile-pics", "profile-pics/u1.PNG")].
Proof.
  pose proof (C3_key_form sample_env signing_service upper_request upper_png
                empty_world eq_refl) as (H1 & H2 & H3 & H4 & _).
  split; [exact H1|]. split; [exact H2|]. split; [exact H3|exact H4].
Defined.

(** ** The content type of the put *)

Lemma mime_resolveMime mt e : mime mt e = Spec.resolveMime mt e.
Proof.
  unfold mime, Spec.resolveMime.
  destruct mt as [|c mt]; [reflexivity|]. reflexivity.
Qed.

(** C7. The content type sent with the put is the declared one, verbatim,
    whenever it begins with image/; otherwise it is read off the extension:
    .png, .gif and .webp give image/png, image/gif and image/webp, every
    other extension and a file name without extension give image/jpeg. *)
Theorem C7_content_type env svc req file w
  (Hfile : upload_single (file_part req) = inr (Some file)) :
  ContentType (put_object file) =
    Spec.resolveMime (mimetype file) (Path.extname (originalname file)) /\
  (forall mt e, mime mt e = Spec.resolveMime mt e) /\
  (forall mt e, Js.starts_with "image/" mt = true -> mime mt e = mt) /\
  (Path.extname (originalname file) = EmptyString ->
   Js.starts_with "image/" (mimetype file) = false ->
   ContentType (put_object file) = "image/jpeg") /\
  In (PutObject (BUCKET env) (derived_key env svc req file w) (put_object file))
     (calls (snd (post_upload env svc req w))).
Proof.
  assert (H1 : ContentType (put_object file) =
    Spec.resolveMime (mimetype file) (Path.extname (originalname file))).
  { cbn [put_object ContentType]. rewrite mime_resolveMime.
    unfold Spec.resolveMime, ext, Js.or_else.
    destruct (Js.starts_with _ _); [reflexivity|].
    destruct (Path.extname _); reflexivity. }
  split; [exact H1|]. split; [apply mime_resolveMime|]. split; [|split].
  - intros mt e H. rewrite mime_resolveMime. unfold Spec.resolveMime.
    rewrite H. reflexivity.
  - intros He Hm. rewrite H1, He. unfold Spec.resolveMime. rewrite Hm. reflexivity.
  - rewrite (post_upload_calls env svc req w file Hfile).
    rewrite !in_app_iff. right. right. left. reflexivity.
Qed.

Lemma C7_content_type_witness :
  ContentType (put_object octet_png) = "image/png" /\
  In (PutObject "sriaas-profile-pics" "profile-pics/u1.png" (put_object octet_png))
     (calls (snd (post_upload sample_env signing_service octet_request empty_world))).
Proof.
  pose proof (C7_content_type sample_env signing_service octet_request octet_png
                empty_world eq_refl) as (H1 & _ & _ & _ & H5).
  split; [exact H1|exact H5].
Defined.

(** The comparison with the extension is case-sensitive: an upper-case
    .PNG sent as application/octet-stream is stored as image/jpeg. *)
Example upper_case_extension_is_jpeg :
  mime "application/octet-stream" (ext upper_png) = "image/jpeg".
Proof. reflexivity. Qed.

(** The second variant's key has no extension. *)
Example variant2_key :
  Variant2.key sample_env (Variant2.userId "gid://shopify/Customer/123") =
    "profile-pics/gid:--shopify-Customer-123" /\
  Variant2.ext upper_png = ".png".
Proof. split; reflexivity. Qed.

(** ** The identifier fallback chain *)

Lemma rawUserId_first_present req :
  supplied (rawUserId req) =
  Spec.first_present
    [query_userId req; query_user_id req; body_userId req; body_user_id req].
Proof.
  unfold rawUserId, supplied, Js.or_undef. cbn [Spec.first_present].
  destruct (query_userId req) as [[|? ?]|], (query_user_id req) as [[|? ?]|],
    (body_userId req) as [[|? ?]|], (body_user_id req) as [[|? ?]|]; reflexivity.
Qed.

Lemma is_hex_lower_not_slash c : is_hex_lower c = true -> Ascii.eqb c "/" = false.
Proof.
  intros H. destruct (Ascii.eqb c "/") eqn:E; [|reflexivity].
  apply Ascii.eqb_eq in E. subst c. discriminate H.
Qed.

Lemma uuid_shape_no_slash s :
  forall i, uuid_shape i s = true -> Js.replace_slashes s = s.
Proof.
  induction s as [|c s IH]; intros i H; [reflexivity|].
  cbn [uuid_shape] in H. apply andb_prop in H as [Hc Hs].
  cbn [Js.replace_slashes]. rewrite (IH _ Hs).
  destruct (Nat.eqb i 8 || Nat.eqb i 13 || Nat.eqb i 18 || Nat.eqb i 23).
  - apply Ascii.eqb_eq in Hc. subst c. reflexivity.
  - rewrite (is_hex_lower_not_slash _ Hc). reflexivity.
Qed.

Lemma is_uuid_nonempty s : is_uuid s = true -> s <> EmptyString.
Proof. intros H ->. discriminate H. Qed.

Example sample_uuid_is_uuid : is_uuid sample_uuid = true.
Proof. reflexivity. Qed.

(** C10. When each of the four identifier fields is missing or the empty
    string, the identifier segment of the key is the UUID drawn during the
    request (one draw, and a UUID is not empty); in general the fields are
    consulted in the order query userId, query user_id, body userId, body
    user_id, and the first non-empty one is the identifier. *)
Theorem C10_empty_identifier_is_absent env svc req file w
  (Hfile : upload_single (file_part req) = inr (Some file))
  (Hq1 : absent_or_empty (query_userId req))
  (Hq2 : absent_or_empty (query_user_id req))
  (Hb1 : absent_or_empty (body_userId req))
  (Hb2 : absent_or_empty (body_user_id req))
  (Huuid : is_uuid (uuid_reply svc w) = true) :
  derived_key env svc req file w =
    PROFILE_PREFIX env +:+ "/" +:+ uuid_reply svc w +:+ ext file /\
  uuid_reply svc w <> EmptyString /\
  uuid_draws (calls (snd (post_upload env svc req w))) = S (uuid_draws (calls w)) /\
  put_keys (calls (snd (post_upload env svc req w))) =
    put_keys (calls w) ++ [(BUCKET env, derived_key env svc req file w)] /\
  (forall req' : UploadRequest,
      supplied (rawUserId req') =
      Spec.first_present
        [query_userId req'; query_user_id req'; body_userId req'; body_user_id req']).
Proof.
  assert (Hnone : supplied (rawUserId req) = None).
  { rewrite rawUserId_first_present.
    destruct Hq1 as [-> | ->], Hq2 as [-> | ->], Hb1 as [-> | ->], Hb2 as [-> | ->];
      reflexivity. }
  split; [|split; [|split; [|split]]].
  - unfold derived_key, identifier, key. rewrite Hnone.
    rewrite (uuid_shape_no_slash _ 0%nat Huuid). reflexivity.
  - apply is_uuid_nonempty, Huuid.
  - rewrite (post_upload_calls env svc req w file Hfile), Hnone.
    rewrite !uuid_draws_app.
    destruct (put_error svc _ _ _ _), (public_base env);
      unfold uuid_draws at 2 3; cbn; lia.
  - apply post_upload_put_keys, Hfile.
  - apply rawUserId_first_present.
Qed.

Lemma C10_empty_identifier_is_absent_witness :
  derived_key sample_env signing_service blank_request small_jpg empty_world =
    "profile-pics/3b241101-e2bb-4255-8caf-4136c566a962.jpg" /\
  uuid_reply signing_service empty_world <> EmptyString /\
  uuid_draws (calls (snd (post_upload sample_env signing_service blank_request empty_world))) = 1%nat.
Proof.
  pose proof (C10_empty_identifier_is_absent sample_env signing_service
                blank_request small_jpg empty_world eq_refl
                (or_intror eq_refl) (or_introl eq_refl)
                (or_introl eq_refl) (or_introl eq_refl) eq_refl)
    as (H1 & H2 & H3 & _).
  split; [exact H1|]. split; [exact H2|exact H3].
Defined.

(** ** What an upload does to the bucket *)

Lemma objects_after_identifier req w : objects (after_identifier req w) = objects w.
Proof. unfold after_identifier. destruct (supplied _); reflexivity. Qed.

Lemma objects_put_sent env svc req file w :
  objects (put_sent env svc req file w) = objects w.
Proof. unfold put_sent. cbn [logged objects]. apply objects_after_identifier. Qed.

Lemma objects_put_done env svc req file w :
  objects (put_done env svc req file w) =
  <[(BUCKET env, derived_key env svc req file w) := put_object file]> (objects w).
Proof. unfold put_done. cbn [objects]. rewrite objects_put_sent. reflexivity. Qed.

Lemma objects_sign_sent env svc req file w :
  objects (sign_sent env svc req file w) =
  <[(BUCKET env, derived_key env svc req file w) := put_object file]> (objects w).
Proof. unfold sign_sent. cbn [logged objects]. apply objects_put_done. Qed.

Lemma error_middleware_status err :
  status (error_middleware err) = 400 \/ status (error_middleware err) = 500.
Proof.
  unfold error_middleware.
  destruct (match err with MulterError _ _ => _ | Error _ => _ end); [left; reflexivity|].
  destruct (_ && _); [left|right]; reflexivity.
Qed.

(** A request whose presigning fails after the put has gone through is
    answered with a 500, and the object is in the bucket. *)
Lemma C5_upload_atomic_counterexample :
  fst (post_upload sample_env unsigning_service plain_request empty_world) =
    {| status := 500;
       json := JError "Could not load credentials from any providers" |} /\
  objects empty_world !! ("sriaas-profile-pics", "profile-pics/u1.jpg") = None /\
  objects (snd (post_upload sample_env unsigning_service plain_request empty_world))
    !! ("sriaas-profile-pics", "profile-pics/u1.jpg") = Some (put_object small_jpg) /\
  put_keys (calls (snd (post_upload sample_env unsigning_service plain_request empty_world))) =
    [("sriaas-profile-pics", "profile-pics/u1.jpg")].
Proof.
  split; [reflexivity|]. split; [reflexivity|]. split; [|reflexivity].
  rewrite post_upload_run. cbn [snd]. vm_compute. reflexivity.
Qed.

(** C5, as the code has it. A request that multer rejects, or that carries
    no file, reaches no collaborator and leaves the world as it was. A 201
    means the bytes are stored under the reported key and the URL was
    resolved. Any other answer leaves the bucket as it was, except when the
    put went through and the signing request then failed: that request is
    answered with a 500 while the object stays in the bucket. *)
Theorem C5_upload_store_effect env svc req w :
  (forall err, upload_single (file_part req) = inl err ->
     post_upload env svc req w = (error_middleware err, w)) /\
  (upload_single (file_part req) = inr None ->
     post_upload env svc req w =
       ({| status := 400; json := JError no_file_uploaded |}, w)) /\
  (status (fst (post_upload env svc req w)) = 201 ->
     exists file u,
       upload_single (file_part req) = inr (Some file) /\
       fst (post_upload env svc req w) =
         uploaded u (derived_key env svc req file w) /\
       objects (snd (post_upload env svc req w)) =
         <[(BUCKET env, derived_key env svc req file w) := put_object file]> (objects w) /\
       Body (put_object file) = buffer file /\
       match public_base env with
       | Some baseUrl =>
           u = Js.strip_trailing_slash baseUrl +:+ "/" +:+ derived_key env svc req file w
       | None =>
           sign_reply svc (put_done env svc req file w) (BUCKET env)
             (derived_key env svc req file w) (60 * 60 * 24 * 6) = inr u
       end) /\
  (status (fst (post_upload env svc req w)) <> 201 ->
     objects (snd (post_upload env svc req w)) = objects w \/
     exists file msg,
       upload_single (file_part req) = inr (Some file) /\
       put_error svc (after_identifier req w) (BUCKET env)
         (derived_key env svc req file w) (put_object file) = None /\
       public_base env = None /\
       sign_reply svc (put_done env svc req file w) (BUCKET env)
         (derived_key env svc req file w) (60 * 60 * 24 * 6) = inl msg /\
       fst (post_upload env svc req w) = failed msg "Upload failed" /\
       objects (snd (post_upload env svc req w)) =
         <[(BUCKET env, derived_key env svc req file w) := put_object file]> (objects w)).
Proof.
  rewrite post_upload_run.
  destruct (upload_single (file_part req)) as [err|[file|]] eqn:Hm.
  - split; [intros ? [= <-]; reflexivity|]. split; [discriminate|].
    split; [|left; reflexivity].
    cbn [fst]. intros H. destruct (error_middleware_status err) as [E|E];
      rewrite E in H; discriminate.
  - cbv zeta. split; [discriminate|]. split; [discriminate|].
    destruct (put_error svc _ _ _ _) as [msg|] eqn:Hput.
    { split; [discriminate|]. intros _. left. cbn [snd]. apply objects_put_sent. }
    destruct (public_base env) as [b|] eqn:Hbase.
    { split; [|intros H; exfalso; apply H; reflexivity].
      intros _. exists file, (Js.strip_trailing_slash b +:+ "/" +:+ derived_key env svc req file w).
      cbn [fst snd]. rewrite objects_put_done. repeat split; auto. }
    destruct (sign_reply svc _ _ _ _) as [msg|u] eqn:Hsign.
    { split; [discriminate|]. intros _. right. exists file, msg.
      cbn [fst snd]. rewrite objects_sign_sent. repeat split; auto. }
    split; [|intros H; exfalso; apply H; reflexivity].
    intros _. exists file, u. cbn [fst snd]. rewrite objects_sign_sent.
    repeat split; auto.
  - split; [discriminate|]. split; [reflexivity|].
    split; [discriminate|left; reflexivity].
Qed.

(** ** The URL of a stored picture *)

(** Pushing [+:+] under the constructors of its first argument. *)
Ltac append_step :=
  repeat match goal with
         | |- context [String ?x ?s +:+ ?t] =>
             change (String x s +:+ t) with (String x (s +:+ t))
         | |- context [EmptyString +:+ ?t] =>
             change (EmptyString +:+ t) with t
         end.

Lemma append_assoc_string (a b c : string) : (a +:+ b) +:+ c = a +:+ (b +:+ c).
Proof.
  induction a as [|x a IH]; [reflexivity|]. append_step. rewrite IH. reflexivity.
Qed.


Lemma strip_trailing_slash_cons c d s :
  Js.strip_trailing_slash (String c (String d s)) =
  String c (Js.strip_trailing_slash (String d s)).
Proof. reflexivity. Qed.

Lemma strip_trailing_slash_cases s :
  (exists s', s = s' +:+ "/" /\ Js.strip_trailing_slash s = s') \/
  ((forall s', s <> s' +:+ "/") /\ Js.strip_trailing_slash s = s).
Proof.
  induction s as [|c s IH].
  - right. split; [|reflexivity]. intros [|? ?]; append_step; discriminate.
  - destruct s as [|d s].
    + cbn [Js.strip_trailing_slash]. destruct (Ascii.eqb c "/") eqn:E.
      * apply Ascii.eqb_eq in E. subst c. left. exists EmptyString. split; reflexivity.
      * right. split; [|reflexivity].
        intros [|x [|y s']]; append_step; try discriminate.
        intros [= ->]. discriminate E.
    + destruct IH as [(s' & Hs & Hstrip)|[Hno Hstrip]].
      * left. exists (String c s'). rewrite strip_trailing_slash_cons.
        rewrite Hstrip. append_step. rewrite <- Hs. split; reflexivity.
      * right. rewrite strip_trailing_slash_cons, Hstrip. split; [|reflexivity].
        intros [|x s']; append_step; [discriminate|]. intros [= -> H]. exact (Hno _ H).
Qed.



Example signed_upload_lifetime :
  sign_lifetimes (calls (snd (post_upload sample_env signing_service plain_request empty_world))) =
    [518400].
Proof. reflexivity. Qed.

(** ** The size limit *)


Lemma fileFilter_rejection file :
  fileFilter file = cb None true \/
  fileFilter file = cb (Some (Error only_images)) false.
Proof.
  unfold fileFilter. destruct (allowedMime_test _); [left; reflexivity|].
  destruct (allowedExt_includes _); [left|right]; reflexivity.
Qed.








(** ** The lookup routes *)

Lemma decode_escape_percent k :
  Uri.decodeURIComponent (escape_percent k) = Some k.
Proof.
  unfold Uri.decodeURIComponent.
  induction k as [|c k IH]; [reflexivity|].
  cbn [escape_percent]. destruct (Ascii.eqb c "%") eqn:E.
  - apply Ascii.eqb_eq in E. subst c.
    change (Uri.decode (String "%" (String "2" (String "5" (escape_percent k)))) 0 128 191)
      with (String "%" <$> Uri.decode (escape_percent k) 0 128 191).
    rewrite IH. reflexivity.
  - cbn [Uri.decode]. rewrite E, IH. reflexivity.
Qed.

(** C8. Every key can be named in the path, and for a path parameter that
    decodes to the key the route makes one call, a signing request for that
    key with a lifetime of 3600 seconds; it neither lists nor reads the
    bucket, and it answers 200 with whatever URL the signer returns, whether
    or not an object is stored under the key. *)
Theorem C8_sign_without_lookup env svc param k w
  (Hdecode : Uri.decodeURIComponent param = Some k) :
  (exists p, Uri.decodeURIComponent p = Some k) /\
  calls (snd (get_profile_pic env svc param w)) =
    calls w ++ [GetSignedUrl (BUCKET env) k 3600] /\
  3600 = 60 * 60 /\
  objects (snd (get_profile_pic env svc param w)) = objects w /\
  (forall u, sign_reply svc w (BUCKET env) k 3600 = inr u ->
             fst (get_profile_pic env svc param w) = {| status := 200; json := JUrl u |}) /\
  (forall msg, sign_reply svc w (BUCKET env) k 3600 = inl msg ->
               fst (get_profile_pic env svc param w) = failed msg "Failed to get URL").
Proof.
  unfold get_profile_pic, respond, url_handler, getSignedUrl, try_catch, bind, ret.
  rewrite Hdecode. cbv beta iota.
  split; [exists param; exact Hdecode|].
  destruct (sign_reply svc w (BUCKET env) k 3600) as [msg|u];
    cbv beta iota; cbn [fst snd logged calls objects];
    repeat split; intros ? [= <-]; reflexivity.
Qed.

Lemma C8_sign_without_lookup_witness :
  objects empty_world !! ("sriaas-profile-pics", "profile-pics/nobody.jpg") = None /\
  calls (snd (get_profile_pic sample_env signing_service "profile-pics%2Fnobody.jpg" empty_world)) =
    [GetSignedUrl "sriaas-profile-pics" "profile-pics/nobody.jpg" 3600] /\
  fst (get_profile_pic sample_env signing_service "profile-pics%2Fnobody.jpg" empty_world) =
    {| status := 200;
       json := JUrl "https://sriaas-profile-pics.s3.amazonaws.com/profile-pics/nobody.jpg?X-Amz-Expires=3600" |}.
Proof.
  pose proof (C8_sign_without_lookup sample_env signing_service
                "profile-pics%2Fnobody.jpg" "profile-pics/nobody.jpg"
                empty_world eq_refl) as (_ & H1 & _ & _ & H4 & _).
  split; [reflexivity|]. split; [exact H1|]. apply H4. reflexivity.
Defined.

Example malformed_key_is_500 :
  get_profile_pic sample_env signing_service "100%" empty_world =
  ({| status := 500; json := JError "URI malformed" |}, empty_world).
Proof. reflexivity. Qed.

Lemma listing_base_unset env :
  public_base env = None -> listing_base env = None.
Proof.
  unfold public_base, listing_base, supplied.
  destruct (S3_PUBLIC_BASE_URL env) as [[|c b]|]; [reflexivity|discriminate|reflexivity].
Qed.

Lemma listing_base_set env b :
  listing_base env = Some b ->
  exists base, public_base env = Some base /\ b = Js.strip_trailing_slash base.
Proof.
  unfold public_base, listing_base, supplied.
  destruct (S3_PUBLIC_BASE_URL env) as [[|c base]|]; [discriminate| |discriminate].
  rewrite or_else_empty. destruct (Js.truthy (Js.strip_trailing_slash _)); [|discriminate].
  intros [= <-]. eexists. split; reflexivity.
Qed.

(** The listing in general. It makes one call, a list request for the
    configured prefix followed by a slash with MaxKeys 100, and signs
    nothing. Every item of the answer carries the key, size and date of the
    listed object; its url is null unless S3_PUBLIC_BASE_URL, one trailing
    slash dropped, is non-empty, and is then that base, a slash and the
    key. The count is the number of items, at most 100 when the bucket
    honours MaxKeys. *)
Lemma listing_answer env svc w contents
  (Hreply : list_reply svc w (BUCKET env) (PROFILE_PREFIX env +:+ "/") 100 = inr contents) :
  calls (snd (get_profile_pics env svc w)) =
    calls w ++ [ListObjectsV2 (BUCKET env) (PROFILE_PREFIX env +:+ "/") 100] /\
  sign_lifetimes (calls (snd (get_profile_pics env svc w))) = sign_lifetimes (calls w) /\
  objects (snd (get_profile_pics env svc w)) = objects w /\
  exists items,
    fst (get_profile_pics env svc w) =
      {| status := 200;
         json := JList (PROFILE_PREFIX env) (Z.of_nat (List.length items)) items |} /\
    map item_key items = map Key (contents_or_empty contents) /\
    map item_size items = map Size (contents_or_empty contents) /\
    map item_lastModified items = map LastModified (contents_or_empty contents) /\
    Forall (fun it =>
              item_url it =
              match listing_base env with
              | Some b => Some (b +:+ "/" +:+ item_key it)
              | None => None
              end) items /\
    (public_base env = None -> Forall (fun it => item_url it = None) items) /\
    (forall b, listing_base env = Some b ->
               b <> EmptyString /\
               exists base, public_base env = Some base /\
                            b = Js.strip_trailing_slash base) /\
    (Z.of_nat (List.length (contents_or_empty contents)) <= 100 ->
     Z.of_nat (List.length items) <= 100).
Proof.
  unfold get_profile_pics, respond, list_handler, send_list, try_catch, bind, ret.
  rewrite Hreply. cbv beta iota. cbn [fst snd logged calls objects].
  split; [reflexivity|]. split.
  { rewrite sign_lifetimes_app. cbn. apply app_nil_r. }
  split; [reflexivity|].
  eexists. split; [reflexivity|].
  fold (contents_or_empty contents).
  assert (Hurl : forall l : list Listed,
    Forall (fun it =>
              item_url it =
              match listing_base env with
              | Some b => Some (b +:+ "/" +:+ item_key it)
              | None => None
              end)
      (map (fun o =>
              {| item_key := Key o; item_size := Size o;
                 item_lastModified := LastModified o;
                 item_url :=
                   if Js.truthy
                        (Js.strip_trailing_slash
                           match S3_PUBLIC_BASE_URL env with
                           | Some b => Js.or_else b EmptyString
                           | None => EmptyString
                           end)
                   then Some (Js.strip_trailing_slash
                                match S3_PUBLIC_BASE_URL env with
                                | Some b => Js.or_else b EmptyString
                                | None => EmptyString
                                end +:+ "/" +:+ Key o)
                   else None |}) l)).
  { intros l. apply Forall_map. apply Forall_forall. intros o _.
    cbn [item_url item_key]. unfold listing_base, supplied.
    destruct (Js.truthy _); reflexivity. }
  rewrite !map_map. cbn [item_key item_size item_lastModified].
  repeat split; try reflexivity.
  - apply Hurl.
  - intros Hnone. pose proof (Hurl (contents_or_empty contents)) as H.
    rewrite (listing_base_unset env Hnone) in H. exact H.
  - intros ->. revert H. unfold listing_base, supplied.
    destruct (Js.strip_trailing_slash _); discriminate.
  - apply listing_base_set, H.
  - rewrite length_map. auto.
Qed.

Example listing_with_base_has_static_urls :
  get_profile_pics public_env listing_service empty_world =
    ({| status := 200;
        json := JList "profile-pics" 2
          [ {| item_key := "profile-pics/u1.jpg"; item_size := 4;
               item_lastModified := "2024-05-01T10:00:00.000Z";
               item_url := Some "https://sriaas-profile-pics.s3.amazonaws.com/profile-pics/u1.jpg" |};
            {| item_key := "profile-pics/u2.png"; item_size := 4;
               item_lastModified := "2024-05-02T10:00:00.000Z";
               item_url := Some "https://sriaas-profile-pics.s3.amazonaws.com/profile-pics/u2.png" |} ] |},
     {| objects := ∅;
        calls := [ListObjectsV2 "sriaas-profile-pics" "profile-pics/" 100] |}).
Proof. reflexivity. Qed.

(** A configured base other than the lone slash is still configured once
    its trailing slash is dropped. *)
Lemma listing_base_of_public env base :
  public_base env = Some base ->
  base <> "/" ->
  listing_base env = Some (Js.strip_trailing_slash base).
Proof.
  unfold public_base, listing_base, supplied.
  destruct (S3_PUBLIC_BASE_URL env) as [b|]; [|discriminate].
  destruct (Js.truthy b) eqn:Hb; [|discriminate].
  intros [= ->] Hne. rewrite or_else_empty.
  destruct (strip_trailing_slash_cases base) as [(s' & Hs & ->)|[_ ->]].
  - destruct s' as [|c s']; [destruct (Hne Hs)|reflexivity].
  - rewrite Hb. reflexivity.
Qed.

(** C9. The listing asks once for at most 100 keys under the configured
    prefix and signs nothing. With no static base URL configured every url
    is null; with one configured every url is the base, its trailing slash
    dropped, a slash and the item's key, as on the upload route, for every
    value of S3_PUBLIC_BASE_URL but the lone slash. There the listing
    departs from this and from the upload route: for the same configuration the
    upload answers with the static URL /profile-pics/u1.jpg, while the
    listing, which tests the base after dropping the slash, answers null
    for every item. *)
Theorem C9_listing_lone_slash :
  (forall env svc w,
      calls (snd (get_profile_pics env svc w)) =
        calls w ++ [ListObjectsV2 (BUCKET env) (PROFILE_PREFIX env +:+ "/") 100] /\
      sign_lifetimes (calls (snd (get_profile_pics env svc w))) =
        sign_lifetimes (calls w)) /\
  (forall env svc w contents,
      list_reply svc w (BUCKET env) (PROFILE_PREFIX env +:+ "/") 100 = inr contents ->
      exists items,
        fst (get_profile_pics env svc w) =
          {| status := 200;
             json := JList (PROFILE_PREFIX env) (Z.of_nat (List.length items)) items |} /\
        map item_key items = map Key (contents_or_empty contents) /\
        (Z.of_nat (List.length (contents_or_empty contents)) <= 100 ->
         Z.of_nat (List.length items) <= 100) /\
        (public_base env = None -> Forall (fun it => item_url it = None) items) /\
        (forall base,
            public_base env = Some base ->
            base <> "/" ->
            Forall (fun it =>
                      item_url it =
                      Some (Js.strip_trailing_slash base +:+ "/" +:+ item_key it))
                   items)) /\
  public_base slash_env = Some "/" /\
  fst (post_upload slash_env signing_service plain_request empty_world) =
    uploaded "/profile-pics/u1.jpg" "profile-pics/u1.jpg" /\
  fst (get_profile_pics slash_env listing_service empty_world) =
    {| status := 200;
       json := JList "profile-pics" 2
         [ {| item_key := "profile-pics/u1.jpg"; item_size := 4;
              item_lastModified := "2024-05-01T10:00:00.000Z";
              item_url := None |};
           {| item_key := "profile-pics/u2.png"; item_size := 4;
              item_lastModified := "2024-05-02T10:00:00.000Z";
              item_url := None |} ] |}.
Proof.
  split.
  { intros env svc w.
    unfold get_profile_pics, respond, list_handler, send_list, try_catch, bind, ret.
    destruct (list_reply svc w _ _ _) as [msg|contents]; cbv beta iota;
      cbn [fst snd logged calls]; (split; [reflexivity|]);
      rewrite sign_lifetimes_app; cbn; apply app_nil_r. }
  split.
  { intros env svc w contents Hreply.
    destruct (listing_answer env svc w contents Hreply)
      as (_ & _ & _ & items & Hfst & Hkeys & _ & _ & Hurl & Hnone & _ & Hlen).
    exists items. split; [exact Hfst|]. split; [exact Hkeys|].
    split; [exact Hlen|]. split; [exact Hnone|].
    intros base Hpub Hne.
    rewrite (listing_base_of_public env base Hpub Hne) in Hurl. exact Hurl. }
  repeat split.
Qed.

Example listing_without_base_has_null_urls :
  fst (get_profile_pics sample_env listing_service empty_world) =
    {| status := 200;
       json := JList "profile-pics" 2
         [ {| item_key := "profile-pics/u1.jpg"; item_size := 4;
              item_lastModified := "2024-05-01T10:00:00.000Z";
              item_url := None |};
           {| item_key := "profile-pics/u2.png"; item_size := 4;
              item_lastModified := "2024-05-02T10:00:00.000Z";
              item_url := None |} ] |}.
Proof. reflexivity. Qed.

(** * Further properties of the code *)

(** ** Start-up *)

Lemma env_missing_false penv k :
  env_missing penv k = false <->
  exists v, penv !! k = Some v /\ v <> EmptyString.
Proof.
  unfold env_missing. destruct (penv !! k) as [[|c v]|]; cbn; split.
  - discriminate.
  - intros (v & [= <-] & H). destruct H. reflexivity.
  - intros _. eexists. split; [reflexivity|discriminate].
  - reflexivity.
  - discriminate.
  - intros (v & [=] & _).
Qed.

Lemma env_missing_true penv k :
  env_missing penv k = true <->
  penv !! k = None \/ penv !! k = Some EmptyString.
Proof.
  unfold env_missing. destruct (penv !! k) as [[|c v]|]; cbn; split; auto;
    try discriminate; intros [|]; discriminate.
Qed.

Lemma check_required_none penv keys :
  check_required penv keys = None <->
  forall k, In k keys -> env_missing penv k = false.
Proof.
  induction keys as [|k0 keys IH]; cbn [check_required].
  - split; [intros _ k []|reflexivity].
  - destruct (env_missing penv k0) eqn:E; split.
    + discriminate.
    + intros H. rewrite (H k0 (or_introl eq_refl)) in E. discriminate.
    + intros H k [<-|Hk]; [exact E|]. apply IH; assumption.
    + intros H. apply IH. intros k Hk. apply H. right. exact Hk.
Qed.

Lemma check_required_some penv keys k :
  check_required penv keys = Some k ->
  exists before after,
    keys = before ++ k :: after /\
    env_missing penv k = true /\
    forall k', In k' before -> env_missing penv k' = false.
Proof.
  induction keys as [|k0 keys IH]; cbn [check_required]; [discriminate|].
  destruct (env_missing penv k0) eqn:E.
  - intros [= <-]. exists [], keys. split; [reflexivity|]. split; [exact E|].
    intros k' [].
  - intros H. destruct (IH H) as (before & after & -> & Hk & Hbefore).
    exists (k0 :: before), after. split; [reflexivity|]. split; [exact Hk|].
    intros k' [<-|Hk']; [exact E|]. apply Hbefore, Hk'.
Qed.

(** X1. The process goes on past the start-up check exactly when each of
    AWS_ACCESS_KEY_ID, AWS_SECRET_ACCESS_KEY, AWS_REGION and S3_BUCKET is
    set to a non-empty string; otherwise it exits naming the first of them,
    in that order, that is unset or empty. Past the check the bucket name
    the handlers use is not empty. *)
Theorem X1_startup_check (penv : gmap string string) :
  (startup penv = None <->
   forall k, In k requiredEnv -> exists v, penv !! k = Some v /\ v <> EmptyString) /\
  (forall k, startup penv = Some k ->
     exists before after,
       requiredEnv = before ++ k :: after /\
       (penv !! k = None \/ penv !! k = Some EmptyString) /\
       forall k', In k' before -> exists v, penv !! k' = Some v /\ v <> EmptyString) /\
  (startup penv = None -> BUCKET (env_of penv) <> EmptyString).
Proof.
  unfold startup. split; [|split].
  - rewrite check_required_none. split; intros H k Hk;
      apply env_missing_false, H, Hk.
  - intros k H. destruct (check_required_some _ _ _ H) as (b & a & E & Hk & Hb).
    exists b, a. split; [exact E|]. split; [apply env_missing_true, Hk|].
    intros k' Hk'. apply env_missing_false, Hb, Hk'.
  - rewrite check_required_none. intros H.
    assert (Hb : env_missing penv "S3_BUCKET" = false).
    { apply H. cbn. auto. }
    apply env_missing_false in Hb as (v & Hv & Hne).
    unfold BUCKET, env_of. cbn [S3_BUCKET]. rewrite Hv. exact Hne.
Qed.

Example startup_full : startup full_env = None.
Proof. reflexivity. Qed.

Example startup_without_region :
  startup (delete "AWS_REGION" full_env) = Some "AWS_REGION".
Proof. reflexivity. Qed.

(** ** The error-handling middleware *)

Lemma includes_nonempty p s :
  p <> EmptyString -> Js.includes p s = true -> s <> EmptyString.
Proof. intros Hp H ->. destruct p; [destruct Hp; reflexivity|discriminate H]. Qed.

Lemma or_else_nonempty a b : b <> EmptyString -> Js.or_else a b <> EmptyString.
Proof. intros Hb. destruct a; [exact Hb|discriminate]. Qed.

(** X2. The error middleware answers 400 exactly for the two errors it
    recognises (a MulterError with code LIMIT_FILE_SIZE, or a message that
    contains 'Only images') and 500 for every other error; the error text
    it sends is never empty: an error without message is reported as
    'Server error'. *)
Theorem X2_error_middleware_total (err : JsError) :
  (status (error_middleware err) = 400 <-> is_Some (kind err)) /\
  (status (error_middleware err) = 500 <-> kind err = None) /\
  exists msg,
    json (error_middleware err) = JError msg /\
    msg <> EmptyString /\
    (kind err = None -> msg = Js.or_else (message err) "Server error").
Proof.
  assert (Hinc : forall m, (Js.truthy m && Js.includes "Only images" m) =
                           Js.includes "Only images" m).
  { intros [|c m]; reflexivity. }
  assert (Hne : forall m, Js.includes "Only images" m = true -> m <> EmptyString).
  { intros m. apply includes_nonempty. discriminate. }
  assert (Hor : forall m, Js.or_else m "Server error" <> EmptyString).
  { intros m. apply or_else_nonempty. discriminate. }
  unfold error_middleware, kind. rewrite Hinc.
  destruct err as [code m|m]; cbn [message];
    try destruct (String.eqb code "LIMIT_FILE_SIZE");
    try (destruct (Js.includes "Only images" m) eqn:E);
    cbn [status json];
    (split; [split; [intros ?; try discriminate; eexists; reflexivity
                    |intros [? ?]; try discriminate; reflexivity]|]);
    (split; [split; intros ?; try discriminate; reflexivity|]);
    eexists; (split; [reflexivity|]); (split; [|intros ?; try discriminate; reflexivity]);
    try discriminate; auto.
Qed.

(** ** The upload route: outcomes *)

Lemma upload_single_error part err :
  upload_single part = inl err ->
  status (error_middleware err) = 400 /\ is_Some (kind err).
Proof.
  unfold upload_single. destruct part as [file|]; [|discriminate].
  destruct (fileFilter_rejection file) as [-> | ->].
  - destruct (fileSize <? _); [|discriminate].
    intros [= <-]. split; [reflexivity|eexists; reflexivity].
  - intros [= <-]. split; [reflexivity|eexists; reflexivity].
Qed.

Lemma post_upload_new_calls env svc req w :
  calls (snd (post_upload env svc req w)) = calls w ++ upload_calls env svc req w.
Proof.
  unfold upload_calls.
  destruct (upload_single (file_part req)) as [err|[file|]] eqn:Hm.
  - rewrite post_upload_run, Hm. cbn [snd]. symmetry. apply app_nil_r.
  - apply post_upload_calls, Hm.
  - rewrite post_upload_run, Hm. cbn [snd]. symmetry. apply app_nil_r.
Qed.

(** Case bashing for statements about the outcome of a request, once the
    collaborators' answers have been fixed. *)
Ltac decide_status :=
  repeat match goal with
         | |- _ /\ _ => split
         | |- _ <-> _ => split
         | |- forall _, _ => intro
         | H : exists _, _ |- _ => destruct H
         | H : _ /\ _ |- _ => destruct H
         | H : _ \/ _ |- _ => destruct H
         | H : is_Some _ |- _ => destruct H
         | H : inr (Some _) = inr (Some _) |- _ => injection H as H; subst
         | H : forall f, inr (Some ?x) <> inr (Some f) |- _ => destruct (H x eq_refl)
         end;
  try congruence;
  try (eexists; repeat split; eauto; congruence).


(** ** No slash in an extension *)

Module PathSlash.

Import Path.

Lemma slash_free_final chars m st :
  slash_free chars m st ->
  startDot st = -1 \/ end_ st = -1 \/
  forall j : nat, startDot st <= Z.of_nat j -> Z.of_nat j < end_ st ->
                  chars !! j <> Some "/"%char.
Proof.
  intros (_ & [Hd|Hd] & [He|He]); auto.
  right. right. intros j Hj1 Hj2. apply He; lia.
Qed.

Lemma extname_loop_slash_free r :
  forall suf st,
    slash_free (rev r ++ suf) (List.length r) st ->
    slash_free (rev r ++ suf) 0
      (extname_loop r (Z.of_nat (List.length r) - 1) st) \/
    (let st' := extname_loop r (Z.of_nat (List.length r) - 1) st in
     startDot st' = -1 \/ end_ st' = -1 \/
     forall j : nat, startDot st' <= Z.of_nat j -> Z.of_nat j < end_ st' ->
                     (rev r ++ suf) !! j <> Some "/"%char).
Proof.
  induction r as [|c r IH]; intros suf st Hst.
  - left. exact Hst.
  - cbn [extname_loop].
    replace (Z.of_nat (List.length (c :: r)) - 1) with (Z.of_nat (List.length r))
      by (cbn [List.length]; lia).
    assert (Hi : (rev (c :: r) ++ suf) !! List.length r = Some c).
    { cbn [rev]. rewrite <- app_assoc.
      rewrite lookup_app_r by (rewrite length_rev; lia).
      rewrite length_rev, Nat.sub_diag. reflexivity. }
    assert (Hchars : rev (c :: r) ++ suf = rev r ++ c :: suf).
    { cbn [rev]. rewrite <- app_assoc. reflexivity. }
    assert (HS : slash_free (rev (c :: r) ++ suf) (S (List.length r)) st) by exact Hst.
    clear Hst. destruct HS as (Hm & Hd & He).
    destruct (Ascii.eqb c "/") eqn:Hslash.
    + destruct (matchedSlash st) eqn:Hms; cbn [negb].
      * rewrite Hchars. apply IH. rewrite <- Hchars.
        split; [intros _; auto|]. split; [destruct Hd; [left|right]; lia|].
        left. auto.
      * right. cbv zeta. cbn [startDot end_].
        apply (slash_free_final _ (S (List.length r))).
        split; [rewrite Hms; discriminate|]. split; assumption.
    + rewrite Hchars. apply IH. rewrite <- Hchars.
      assert (Hc : Some c <> Some "/"%char).
      { intros [= ->]. discriminate Hslash. }
      assert (Hrange : forall e, (end_ st = -1 /\ e = Z.of_nat (List.length r) + 1) \/
                                 (end_ st <> -1 /\ e = end_ st) ->
        forall j : nat, (List.length r <= j)%nat -> Z.of_nat j < e ->
                        (rev (c :: r) ++ suf) !! j <> Some "/"%char).
      { intros e [[E ->]|[E ->]] j Hj1 Hj2.
        - replace j with (List.length r) by lia. rewrite Hi. exact Hc.
        - destruct (Nat.eq_dec j (List.length r)) as [->|Hne].
          + rewrite Hi. exact Hc.
          + destruct He as [He|He]; [contradiction|]. apply He; lia. }
      destruct (end_ st =? -1) eqn:E;
        [apply Z.eqb_eq in E|apply Z.eqb_neq in E];
        (destruct (Ascii.eqb c "."));
        cbn [startDot end_ preDotState matchedSlash startPart];
        (destruct (startDot st =? -1) eqn:S0;
         [apply Z.eqb_eq in S0|apply Z.eqb_neq in S0]);
        cbn [negb];
        try (destruct (negb (preDotState st =? 1)));
        unfold slash_free;
        cbn [startDot end_ preDotState matchedSlash startPart];
        (split; [first [discriminate | intros Hx; specialize (Hm Hx); lia]|]);
        (split; [first [left; lia | right; lia
                       | destruct Hd; [left|right]; lia]|]);
        right; apply Hrange; first [left; split; [exact E|reflexivity]
                                   | right; split; [exact E|reflexivity]].
Qed.

Lemma includes_slash_cons c s :
  Js.includes "/" (String c s) = Ascii.eqb "/" c || Js.includes "/" s.
Proof. cbn [Js.includes Js.starts_with]. rewrite andb_true_r. reflexivity. Qed.

Lemma substring_slash_free s :
  forall n len,
    (forall j : nat, (n <= j)%nat -> (j < n + len)%nat ->
                     list_ascii_of_string s !! j <> Some "/"%char) ->
    Js.includes "/" (String.substring n len s) = false.
Proof.
  induction s as [|c s IH]; intros n len H.
  - destruct n, len; reflexivity.
  - destruct n as [|n].
    + destruct len as [|len]; [reflexivity|].
      cbn [String.substring]. rewrite includes_slash_cons.
      rewrite (IH 0%nat len).
      * destruct (Ascii.eqb "/" c) eqn:E; [|reflexivity].
        apply Ascii.eqb_eq in E. subst c.
        destruct (H 0%nat); [lia|lia|reflexivity].
      * intros j Hj1 Hj2. apply (H (S j)); lia.
    + cbn [String.substring]. apply IH.
      intros j Hj1 Hj2. apply (H (S j)); lia.
Qed.

(** The extension [path.extname] returns contains no slash. *)
Lemma extname_no_slash path : Js.includes "/" (extname path) = false.
Proof.
  unfold extname.
  set (chars := list_ascii_of_string path).
  pose proof (extname_loop_slash_free (rev chars) [] scan0) as H.
  rewrite rev_involutive, app_nil_r, length_rev in H.
  set (st := extname_loop _ _ _) in *.
  destruct ((startDot st =? -1) || _ || _ || _) eqn:C; [reflexivity|].
  apply orb_false_elim in C as [C _].
  apply orb_false_elim in C as [C _].
  apply orb_false_elim in C as [C1 C2].
  apply Z.eqb_neq in C1, C2.
  assert (Hfin : forall j : nat, startDot st <= Z.of_nat j -> Z.of_nat j < end_ st ->
                                 chars !! j <> Some "/"%char).
  { destruct H as [H|H].
    - split; [reflexivity|]. split; left; reflexivity.
    - destruct (slash_free_final _ _ _ H) as [?|[?|?]]; [lia|lia|assumption].
    - cbv zeta in H. destruct H as [?|[?|?]]; [lia|lia|assumption]. }
  pose proof (PathFacts.extname_loop_dot_ok (rev chars) [] scan0) as Hdot.
  rewrite rev_involutive, app_nil_r, length_rev in Hdot.
  fold st in Hdot.
  destruct Hdot as [_ [Hd|[Hd _]]].
  { split; left; reflexivity. }
  { lia. }
  apply substring_slash_free. intros j Hj1 Hj2. apply Hfin; lia.
Qed.

End PathSlash.

(** ** The upload route: what is put, and where *)

Lemma mime_is_image mt e : Js.starts_with "image/" (mime mt e) = true.
Proof.
  unfold mime. destruct (Js.truthy mt && Js.starts_with "image/" mt) eqn:E.
  - apply andb_prop in E as [_ E]. exact E.
  - destruct (String.eqb e ".png"); [reflexivity|].
    destruct (String.eqb e ".gif"); [reflexivity|].
    destruct (String.eqb e ".webp"); reflexivity.
Qed.

Lemma upload_single_same part file :
  upload_single part = inr (Some file) -> part = Some file.
Proof.
  unfold upload_single. destruct part as [f|]; [|discriminate].
  destruct (fileFilter f) as [[e|] [|]]; try discriminate.
  destruct (fileSize <? _); [discriminate|]. intros [= ->]. reflexivity.
Qed.

(** X4. A request to the upload route makes at most one put, and every put
    it makes goes to the configured bucket, stores the bytes of the
    uploaded file, declares a content type that begins with image/ and
    carries the cache directive public, max-age=31536000. *)
Theorem X4_every_put env svc req w :
  calls (snd (post_upload env svc req w)) = calls w ++ upload_calls env svc req w /\
  (List.length (put_keys (upload_calls env svc req w)) <= 1)%nat /\
  forall bucket k obj,
    In (PutObject bucket k obj) (upload_calls env svc req w) ->
    bucket = BUCKET env /\
    (exists file, file_part req = Some file /\ Body obj = buffer file) /\
    Js.starts_with "image/" (ContentType obj) = true /\
    CacheControl obj = "public, max-age=31536000".
Proof.
  split; [apply post_upload_new_calls|].
  unfold upload_calls.
  destruct (upload_single (file_part req)) as [err|[file|]] eqn:Hm;
    [split; [cbn; lia|intros ? ? ? []]| |split; [cbn; lia|intros ? ? ? []]].
  split.
  - rewrite put_keys_app.
    destruct (supplied (rawUserId req)), (put_error svc _ _ _ _), (public_base env);
      cbn; lia.
  - intros bucket k obj Hin.
    assert (Hput : PutObject bucket k obj =
                   PutObject (BUCKET env) (derived_key env svc req file w) (put_object file)).
    { apply in_app_or in Hin as [Hin|[Hin|Hin]].
      - destruct (supplied (rawUserId req)); [destruct Hin|].
        destruct Hin as [Hin|[]]. discriminate Hin.
      - symmetry. exact Hin.
      - destruct (put_error svc _ _ _ _), (public_base env);
          first [destruct Hin as [Hin|[]]; discriminate Hin | destruct Hin]. }
    injection Hput as -> -> ->.
    split; [reflexivity|]. split.
    + exists file. split; [apply upload_single_same, Hm|reflexivity].
    + split; [apply mime_is_image|reflexivity].
Qed.

Lemma starts_with_app p s : Js.starts_with p (p +:+ s) = true.
Proof.
  induction p as [|c p IH]; [reflexivity|].
  change (String c p +:+ s) with (String c (p +:+ s)).
  cbn [Js.starts_with]. rewrite IH, Ascii.eqb_refl. reflexivity.
Qed.

Lemma includes_slash_app a b :
  Js.includes "/" (a +:+ b) = Js.includes "/" a || Js.includes "/" b.
Proof.
  induction a as [|c a IH].
  - change (EmptyString +:+ b) with b. reflexivity.
  - change (String c a +:+ b) with (String c (a +:+ b)).
    rewrite !PathSlash.includes_slash_cons, IH. apply orb_assoc.
Qed.

Lemma ext_no_slash file : Js.includes "/" (ext file) = false.
Proof.
  rewrite ext_cases.
  pose proof (PathSlash.extname_no_slash (originalname file)) as H.
  destruct (Path.extname (originalname file)); [reflexivity|exact H].
Qed.

Lemma PROFILE_PREFIX_nonempty env : PROFILE_PREFIX env <> EmptyString.
Proof.
  unfold PROFILE_PREFIX. destruct (S3_PROFILE_PREFIX env) as [[|c p]|]; discriminate.
Qed.

(** X5. The key of an upload is the prefix, one slash, and a name that
    contains no slash and is not empty: whatever identifier and file name
    the client sends, the object lands directly under the prefix, which is
    itself never empty, and its key begins with the Prefix the listing
    route asks for. *)
Theorem X5_key_directly_under_prefix env svc req file w :
  exists name,
    derived_key env svc req file w = PROFILE_PREFIX env +:+ "/" +:+ name /\
    Js.includes "/" name = false /\
    name <> EmptyString /\
    PROFILE_PREFIX env <> EmptyString /\
    Js.starts_with (PROFILE_PREFIX env +:+ "/") (derived_key env svc req file w) = true.
Proof.
  exists (Js.replace_slashes (identifier svc req w) +:+ ext file).
  split; [reflexivity|]. split; [|split; [|split]].
  - rewrite includes_slash_app, replace_slashes_no_slash, ext_no_slash. reflexivity.
  - destruct (ext_leading_dot file) as [rest ->].
    destruct (Js.replace_slashes _); discriminate.
  - apply PROFILE_PREFIX_nonempty.
  - unfold derived_key, key. rewrite <- append_assoc_string. apply starts_with_app.
Qed.

Lemma post_upload_objects env svc req w :
  objects (snd (post_upload env svc req w)) = objects w \/
  exists file,
    upload_single (file_part req) = inr (Some file) /\
    objects (snd (post_upload env svc req w)) =
      <[(BUCKET env, derived_key env svc req file w) := put_object file]> (objects w).
Proof.
  rewrite post_upload_run.
  destruct (upload_single (file_part req)) as [err|[file|]] eqn:Hm;
    [left; reflexivity| |left; reflexivity].
  cbv zeta. destruct (put_error svc _ _ _ _).
  { left. apply objects_put_sent. }
  right. exists file. split; [reflexivity|].
  destruct (public_base env); [apply objects_put_done|].
  destruct (sign_reply svc _ _ _ _); apply objects_sign_sent.
Qed.

(** X6. An upload never removes an object and touches at most the object
    under its own key: every other key of every bucket holds after the
    request what it held before, and a request that multer turns down
    leaves the whole store as it was. *)
Theorem X6_upload_touches_one_key env svc req w :
  (forall kk, is_Some (objects w !! kk) ->
              is_Some (objects (snd (post_upload env svc req w)) !! kk)) /\
  (forall file kk,
      upload_single (file_part req) = inr (Some file) ->
      kk <> (BUCKET env, derived_key env svc req file w) ->
      objects (snd (post_upload env svc req w)) !! kk = objects w !! kk) /\
  ((forall file, upload_single (file_part req) <> inr (Some file)) ->
   objects (snd (post_upload env svc req w)) = objects w).
Proof.
  destruct (post_upload_objects env svc req w) as [H|(file & Hm & H)]; rewrite H.
  - split; [auto|]. split; reflexivity.
  - split; [|split].
    + intros kk Hk. rewrite lookup_insert. case_decide; [eauto|exact Hk].
    + intros f kk Hf Hne. rewrite Hf in Hm. injection Hm as ->.
      apply lookup_insert_ne. congruence.
    + intros Hno. destruct (Hno file Hm).
Qed.

(** ** Two uploads in a row *)

Lemma replace_slashes_idem s :
  Js.replace_slashes (Js.replace_slashes s) = Js.replace_slashes s.
Proof.
  induction s as [|c s IH]; [reflexivity|]. cbn [Js.replace_slashes].
  rewrite IH. destruct (Ascii.eqb c "/") eqn:E; [reflexivity|]. rewrite E. reflexivity.
Qed.

Lemma post_upload_twice_eq env svc req1 req2 w :
  post_upload_twice env svc req1 req2 w =
  (fst (post_upload env svc req1 w),
   fst (post_upload env svc req2 (snd (post_upload env svc req1 w))),
   snd (post_upload env svc req2 (snd (post_upload env svc req1 w)))).
Proof.
  unfold post_upload_twice.
  destruct (post_upload env svc req1 w) as [r1 w1]. cbn [fst snd].
  destruct (post_upload env svc req2 w1) as [r2 w2]. reflexivity.
Qed.

Lemma derived_key_supplied env svc req file w raw :
  supplied (rawUserId req) = Some raw ->
  derived_key env svc req file w =
  PROFILE_PREFIX env +:+ "/" +:+ Js.replace_slashes raw +:+ ext file.
Proof. intros H. unfold derived_key, identifier, key. rewrite H. reflexivity. Qed.

Lemma post_upload_201 env svc req w file :
  upload_single (file_part req) = inr (Some file) ->
  status (fst (post_upload env svc req w)) = 201 ->
  (exists u, fst (post_upload env svc req w) =
             uploaded u (derived_key env svc req file w)) /\
  objects (snd (post_upload env svc req w)) =
    <[(BUCKET env, derived_key env svc req file w) := put_object file]> (objects w).
Proof.
  intros Hm. rewrite post_upload_run, Hm. cbv zeta.
  destruct (put_error svc _ _ _ _); [discriminate|].
  destruct (public_base env).
  - intros _. split; [eauto|apply objects_put_done].
  - destruct (sign_reply svc _ _ _ _); [discriminate|].
    intros _. split; [eauto|apply objects_sign_sent].
Qed.

(** X7. Last write wins: when the same identifier uploads twice and the two
    file names have the same extension, the second successful upload
    leaves the store exactly as if only it had happened, whatever became of
    the first. *)
Theorem X7_last_write_wins env svc req1 req2 file1 file2 raw w
  (Hm1 : upload_single (file_part req1) = inr (Some file1))
  (Hm2 : upload_single (file_part req2) = inr (Some file2))
  (Hr1 : supplied (rawUserId req1) = Some raw)
  (Hr2 : supplied (rawUserId req2) = Some raw)
  (Hext : ext file1 = ext file2)
  (H201 : status (snd (fst (post_upload_twice env svc req1 req2 w))) = 201) :
  objects (snd (post_upload_twice env svc req1 req2 w)) =
    <[(BUCKET env,
       PROFILE_PREFIX env +:+ "/" +:+ Js.replace_slashes raw +:+ ext file2)
      := put_object file2]> (objects w) /\
  exists u,
    snd (fst (post_upload_twice env svc req1 req2 w)) =
    uploaded u (PROFILE_PREFIX env +:+ "/" +:+ Js.replace_slashes raw +:+ ext file2).
Proof.
  rewrite post_upload_twice_eq in *. cbn [fst snd] in *.
  destruct (post_upload_201 _ _ _ _ _ Hm2 H201) as [[u Hu] Hobj].
  rewrite (derived_key_supplied _ _ _ _ _ _ Hr2) in Hu, Hobj.
  split; [|eauto]. rewrite Hobj.
  destruct (post_upload_objects env svc req1 w) as [->|(f & Hf & ->)]; [reflexivity|].
  rewrite Hf in Hm1. injection Hm1 as ->.
  rewrite (derived_key_supplied _ _ _ _ _ _ Hr1), Hext.
  apply insert_insert_eq.
Qed.

Lemma X7_last_write_wins_witness :
  objects (snd (post_upload_twice sample_env signing_service png_request png_request
                  empty_world)) =
    <[("sriaas-profile-pics", "profile-pics/u1.png") := put_object a_png]> ∅.
Proof.
  exact (proj1 (X7_last_write_wins sample_env signing_service png_request png_request
                  a_png a_png "u1" empty_world
                  eq_refl eq_refl eq_refl eq_refl eq_refl eq_refl)).
Defined.

(** X8. The extension is part of the key: when the same identifier uploads
    a second picture whose file name has another extension, the two keys
    differ and, both uploads succeeding, the first object is still in the
    bucket beside the second. *)
Theorem X8_other_extension_other_object env svc req1 req2 file1 file2 raw w
  (Hm1 : upload_single (file_part req1) = inr (Some file1))
  (Hm2 : upload_single (file_part req2) = inr (Some file2))
  (Hr1 : supplied (rawUserId req1) = Some raw)
  (Hr2 : supplied (rawUserId req2) = Some raw)
  (Hext : ext file1 <> ext file2)
  (H1 : status (fst (fst (post_upload_twice env svc req1 req2 w))) = 201)
  (H2 : status (snd (fst (post_upload_twice env svc req1 req2 w))) = 201) :
  PROFILE_PREFIX env +:+ "/" +:+ Js.replace_slashes raw +:+ ext file1 <>
    PROFILE_PREFIX env +:+ "/" +:+ Js.replace_slashes raw +:+ ext file2 /\
  objects (snd (post_upload_twice env svc req1 req2 w))
    !! (BUCKET env, PROFILE_PREFIX env +:+ "/" +:+ Js.replace_slashes raw +:+ ext file1) =
    Some (put_object file1) /\
  objects (snd (post_upload_twice env svc req1 req2 w))
    !! (BUCKET env, PROFILE_PREFIX env +:+ "/" +:+ Js.replace_slashes raw +:+ ext file2) =
    Some (put_object file2).
Proof.
  rewrite post_upload_twice_eq in *. cbn [fst snd] in *.
  destruct (post_upload_201 _ _ _ _ _ Hm1 H1) as [_ Hobj1].
  destruct (post_upload_201 _ _ _ _ _ Hm2 H2) as [_ Hobj2].
  rewrite (derived_key_supplied _ _ _ _ _ _ Hr1) in Hobj1.
  rewrite (derived_key_supplied _ _ _ _ _ _ Hr2) in Hobj2.
  assert (Hne : PROFILE_PREFIX env +:+ "/" +:+ Js.replace_slashes raw +:+ ext file1 <>
                PROFILE_PREFIX env +:+ "/" +:+ Js.replace_slashes raw +:+ ext file2).
  { intros E. apply Hext.
    apply (inj (String.app (PROFILE_PREFIX env))) in E.
    apply (inj (String.app "/")) in E.
    apply (inj (String.app (Js.replace_slashes raw))) in E. exact E. }
  split; [exact Hne|]. rewrite Hobj2, Hobj1. split.
  - rewrite lookup_insert_ne by congruence. apply lookup_insert_eq.
  - apply lookup_insert_eq.
Qed.

Lemma X8_other_extension_other_object_witness :
  "profile-pics/u1.jpg" <> "profile-pics/u1.png" /\
  objects (snd (post_upload_twice sample_env signing_service jpg_request png_request
                  empty_world)) !! ("sriaas-profile-pics", "profile-pics/u1.jpg") =
    Some (put_object small_jpg) /\
  objects (snd (post_upload_twice sample_env signing_service jpg_request png_request
                  empty_world)) !! ("sriaas-profile-pics", "profile-pics/u1.png") =
    Some (put_object a_png).
Proof.
  assert (Hext : ext small_jpg <> ext a_png) by (vm_compute; discriminate).
  exact (X8_other_extension_other_object sample_env signing_service
           jpg_request png_request small_jpg a_png "u1" empty_world
           eq_refl eq_refl eq_refl eq_refl Hext eq_refl eq_refl).
Defined.

(** X9. Replacing slashes by hyphens merges identifiers: an identifier and
    its own sanitized form lead to the same key for files of the same
    extension, and the two identifiers are different as soon as the first
    contains a slash. *)
Theorem X9_sanitized_identifiers_collide env svc svc' req1 req2 file1 file2 raw w w'
  (Hr1 : supplied (rawUserId req1) = Some raw)
  (Hr2 : supplied (rawUserId req2) = Some (Js.replace_slashes raw))
  (Hext : ext file1 = ext file2) :
  derived_key env svc req1 file1 w = derived_key env svc' req2 file2 w' /\
  (Js.includes "/" raw = true -> Js.replace_slashes raw <> raw).
Proof.
  split.
  - rewrite (derived_key_supplied _ _ _ _ _ _ Hr1), (derived_key_supplied _ _ _ _ _ _ Hr2).
    rewrite replace_slashes_idem, Hext. reflexivity.
  - intros Hs E. pose proof (replace_slashes_no_slash raw) as H.
    rewrite E in H. congruence.
Qed.

Lemma X9_sanitized_identifiers_collide_witness :
  derived_key sample_env signing_service gid_request a_png empty_world =
    derived_key sample_env signing_service sanitized_gid_request a_png empty_world /\
  Js.replace_slashes "gid://shopify/Customer/123" <> "gid://shopify/Customer/123".
Proof.
  destruct (X9_sanitized_identifiers_collide sample_env signing_service signing_service
              gid_request sanitized_gid_request a_png a_png
              "gid://shopify/Customer/123" empty_world empty_world
              eq_refl eq_refl eq_refl) as [H1 H2].
  split; [exact H1|apply H2; reflexivity].
Defined.

(** ** The lookup routes: every outcome *)

(** X10. The listing route makes its one list request and leaves the
    bucket alone in every case. A failed request is answered with a 500
    carrying the error's message, or 'Failed to list' when it has none; an
    answer without Contents is a 200 with count 0 and no items. *)
Theorem X10_listing_outcomes env svc w :
  calls (snd (get_profile_pics env svc w)) =
    calls w ++ [ListObjectsV2 (BUCKET env) (PROFILE_PREFIX env +:+ "/") 100] /\
  objects (snd (get_profile_pics env svc w)) = objects w /\
  (forall msg,
      list_reply svc w (BUCKET env) (PROFILE_PREFIX env +:+ "/") 100 = inl msg ->
      fst (get_profile_pics env svc w) = failed msg "Failed to list" /\
      Js.or_else msg "Failed to list" <> EmptyString) /\
  (list_reply svc w (BUCKET env) (PROFILE_PREFIX env +:+ "/") 100 = inr None ->
   fst (get_profile_pics env svc w) =
     {| status := 200; json := JList (PROFILE_PREFIX env) 0 [] |}) /\
  (status (fst (get_profile_pics env svc w)) = 200 <->
   exists contents,
     list_reply svc w (BUCKET env) (PROFILE_PREFIX env +:+ "/") 100 = inr contents).
Proof.
  unfold get_profile_pics, respond, list_handler, send_list, try_catch, bind, ret.
  destruct (list_reply svc w (BUCKET env) (PROFILE_PREFIX env +:+ "/") 100)
    as [msg|[contents|]]; cbv beta iota; cbn [fst snd logged calls objects status];
    decide_status; try reflexivity;
    try (apply or_else_nonempty; discriminate).
  injection H as <-. reflexivity.
Qed.

Lemma decode_percent_free s :
  Js.includes "%" s = false -> Uri.decodeURIComponent s = Some s.
Proof.
  unfold Uri.decodeURIComponent.
  induction s as [|c s IH]; [reflexivity|].
  cbn [Js.includes Js.starts_with]. rewrite andb_true_r.
  intros H. apply orb_false_elim in H as [Hc Hs].
  cbn [Uri.decode]. rewrite Ascii.eqb_sym, Hc, (IH Hs). reflexivity.
Qed.

(** X11. The URL route never changes the bucket. A key parameter with a
    malformed escape is answered with a 500 'URI malformed' before any
    call; a failing signer with a 500 carrying its message, or 'Failed to
    get URL'; the answer is a 200 exactly when the parameter decodes and
    the signer returns a URL. A parameter without percent sign is the key
    that is signed, verbatim. *)
Theorem X11_url_route_outcomes env svc param w :
  objects (snd (get_profile_pic env svc param w)) = objects w /\
  (Uri.decodeURIComponent param = None ->
   get_profile_pic env svc param w =
     ({| status := 500; json := JError "URI malformed" |}, w)) /\
  (forall k msg,
      Uri.decodeURIComponent param = Some k ->
      sign_reply svc w (BUCKET env) k 3600 = inl msg ->
      fst (get_profile_pic env svc param w) = failed msg "Failed to get URL") /\
  (status (fst (get_profile_pic env svc param w)) = 200 <->
   exists k u, Uri.decodeURIComponent param = Some k /\
               sign_reply svc w (BUCKET env) k 3600 = inr u) /\
  (Js.includes "%" param = false ->
   calls (snd (get_profile_pic env svc param w)) =
     calls w ++ [GetSignedUrl (BUCKET env) param 3600]).
Proof.
  assert (Hfree : Js.includes "%" param = false ->
                  Uri.decodeURIComponent param = Some param)
    by apply decode_percent_free.
  unfold get_profile_pic, respond, url_handler, getSignedUrl, try_catch, bind,
    ret, throw.
  destruct (Js.includes "%" param);
    [clear Hfree|specialize (Hfree eq_refl); rewrite Hfree];
    try destruct (Uri.decodeURIComponent param) as [k|]; cbv beta iota;
    try (destruct (sign_reply svc w (BUCKET env) _ 3600) as [msg|u] eqn:Hs);
    cbv beta iota; cbn [fst snd logged calls objects status message];
    decide_status; try reflexivity;
    repeat match goal with
           | H : Some _ = Some _ |- _ => injection H as H; subst
           | H : inl _ = inl _ |- _ => injection H as H; subst
           | H : ?x = inl _, H' : ?x = inl _ |- _ =>
               rewrite H in H'; injection H' as H'; subst
           end;
    try congruence; try reflexivity.
Qed.

(** ** The static URL in the two routes *)

Lemma listing_items env svc w p c items :
  fst (get_profile_pics env svc w) = {| status := 200; json := JList p c items |} ->
  Forall (fun it =>
            item_url it =
            match listing_base env with
            | Some b => Some (b +:+ "/" +:+ item_key it)
            | None => None
            end) items.
Proof.
  unfold get_profile_pics, respond, list_handler, send_list, try_catch, bind, ret.
  destruct (list_reply svc w _ _ _) as [msg|contents]; cbv beta iota; cbn [fst];
    [discriminate|].
  intros [= _ _ <-]. apply Forall_map, Forall_forall. intros o _.
  cbn [item_url item_key]. unfold listing_base, supplied.
  destruct (Js.truthy _); reflexivity.
Qed.

(** X12. The two routes agree on the public URL: whenever the listing
    shows URLs at all, the URL a successful upload returns for its key is
    the URL the listing shows for every item with that key. *)
Theorem X12_static_urls_agree env svc req w u k b svc' w' p c items
  (H201 : fst (post_upload env svc req w) = uploaded u k)
  (Hbase : listing_base env = Some b)
  (Hlist : fst (get_profile_pics env svc' w') =
           {| status := 200; json := JList p c items |}) :
  u = b +:+ "/" +:+ k /\
  forall it, In it items -> item_key it = k -> item_url it = Some u.
Proof.
  destruct (listing_base_set env b Hbase) as (base & Hpub & ->).
  assert (Hu : u = Js.strip_trailing_slash base +:+ "/" +:+ k).
  { rewrite post_upload_run in H201.
    destruct (upload_single (file_part req)) as [err|[file|]] eqn:Hm.
    - cbn [fst] in H201. exfalso.
      destruct (error_middleware_status err) as [E|E]; rewrite H201 in E; discriminate E.
    - cbv zeta in H201. destruct (put_error svc _ _ _ _); [discriminate|].
      rewrite Hpub in H201. injection H201 as <- <-. reflexivity.
    - discriminate. }
  split; [exact Hu|].
  intros it Hin Hk. pose proof (listing_items env svc' w' p c items Hlist) as Hall.
  rewrite List.Forall_forall in Hall. rewrite (Hall it Hin), Hbase, Hk, Hu. reflexivity.
Qed.

Lemma X12_static_urls_agree_witness :
  "https://sriaas-profile-pics.s3.amazonaws.com/profile-pics/u1.jpg" =
    "https://sriaas-profile-pics.s3.amazonaws.com" +:+ "/" +:+ "profile-pics/u1.jpg" /\
  forall it,
    In it [ {| item_key := "profile-pics/u1.jpg"; item_size := 4;
               item_lastModified := "2024-05-01T10:00:00.000Z";
               item_url := Some "https://sriaas-profile-pics.s3.amazonaws.com/profile-pics/u1.jpg" |};
            {| item_key := "profile-pics/u2.png"; item_size := 4;
               item_lastModified := "2024-05-02T10:00:00.000Z";
               item_url := Some "https://sriaas-profile-pics.s3.amazonaws.com/profile-pics/u2.png" |} ] ->
    item_key it = "profile-pics/u1.jpg" ->
    item_url it =
      Some "https://sriaas-profile-pics.s3.amazonaws.com/profile-pics/u1.jpg".
Proof.
  exact (X12_static_urls_agree public_env signing_service plain_request empty_world
           "https://sriaas-profile-pics.s3.amazonaws.com/profile-pics/u1.jpg"
           "profile-pics/u1.jpg" "https://sriaas-profile-pics.s3.amazonaws.com"
           listing_service empty_world "profile-pics" 2 _
           eq_refl eq_refl eq_refl).
Defined.

(** ** The second variant of the upload route *)

Section Variant2Run.

Variable env : Env.
Variable svc : Service.
Variable req : UploadRequest.
Variable w : World.

(** The second variant's route, executed symbolically. *)
Lemma variant2_run :
  Variant2Route.post_upload env svc req w =
  match upload_single (file_part req) with
  | inl err => (error_middleware err, w)
  | inr None => ({| status := 400; json := JError no_file_uploaded |}, w)
  | inr (Some file) =>
      match supplied (rawUserId req) with
      | None =>
          ({| status := 400; json := JError Variant2Route.missing_userId |}, w)
      | Some raw =>
          let k := Variant2.key env (Variant2.userId raw) in
          let obj := Variant2Route.put_object file in
          let w1 := logged (PutObject (BUCKET env) k obj) w in
          let w2 := {| objects := <[(BUCKET env, k) := obj]> (objects w);
                       calls := calls w1 |} in
          match put_error svc w (BUCKET env) k obj with
          | Some msg => (failed msg "Upload failed", w1)
          | None =>
              match public_base env with
              | Some baseUrl =>
                  (uploaded (Js.strip_trailing_slash baseUrl +:+ "/" +:+ k) k, w2)
              | None =>
                  match sign_reply svc w2 (BUCKET env) k (60 * 60 * 24 * 6) with
                  | inl msg =>
                      (failed msg "Upload failed",
                       logged (GetSignedUrl (BUCKET env) k (60 * 60 * 24 * 6)) w2)
                  | inr u =>
                      (uploaded u k,
                       logged (GetSignedUrl (BUCKET env) k (60 * 60 * 24 * 6)) w2)
                  end
              end
          end
      end
  end.
Proof.
  unfold Variant2Route.post_upload.
  destruct (upload_single (file_part req)) as [err|[file|]]; [reflexivity| |reflexivity].
  unfold respond, Variant2Route.upload_handler, url, public_base, send_put,
    getSignedUrl, try_catch, bind, ret, failed, uploaded,
    Variant2Route.put_object.
  destruct (supplied (rawUserId req)) as [raw|]; [|reflexivity].
  cbv beta iota zeta.
  destruct (put_error svc _ _ _ _) as [msg|]; cbv beta iota; [reflexivity|].
  unfold supplied.
  destruct (S3_PUBLIC_BASE_URL env) as [b|];
    [destruct (Js.truthy b); cbv beta iota; [reflexivity|] |];
    destruct (sign_reply svc _ _ _ _); reflexivity.
Qed.

End Variant2Run.

(** X13. The two variants differ on a request without identifier: the
    second refuses it with a 400 'Missing userId (Shopify customer ID).'
    before any call, where server.js draws a UUID and puts the file under
    it. *)
Theorem X13_variant2_requires_identifier env svc req file w
  (Hm : upload_single (file_part req) = inr (Some file))
  (Hnone : supplied (rawUserId req) = None) :
  Variant2Route.post_upload env svc req w =
    ({| status := 400; json := JError "Missing userId (Shopify customer ID)." |}, w) /\
  put_keys (calls (snd (post_upload env svc req w))) =
    put_keys (calls w) ++
    [(BUCKET env,
      PROFILE_PREFIX env +:+ "/" +:+ Js.replace_slashes (uuid_reply svc w) +:+ ext file)] /\
  uuid_draws (calls (snd (post_upload env svc req w))) = S (uuid_draws (calls w)).
Proof.
  split; [rewrite variant2_run, Hm, Hnone; reflexivity|]. split.
  - rewrite (post_upload_put_keys env svc req w file Hm).
    unfold derived_key, identifier, key. rewrite Hnone. reflexivity.
  - rewrite (post_upload_calls env svc req w file Hm), Hnone, !uuid_draws_app.
    destruct (put_error svc _ _ _ _), (public_base env);
      unfold uuid_draws at 2 3; cbn; lia.
Qed.

Lemma X13_variant2_requires_identifier_witness :
  Variant2Route.post_upload sample_env signing_service blank_request empty_world =
    ({| status := 400; json := JError "Missing userId (Shopify customer ID)." |},
     empty_world) /\
  uuid_draws (calls (snd (post_upload sample_env signing_service blank_request empty_world))) =
    S (uuid_draws (calls empty_world)).
Proof.
  destruct (X13_variant2_requires_identifier sample_env signing_service blank_request
              small_jpg empty_world eq_refl eq_refl) as (H1 & _ & H3).
  split; [exact H1|exact H3].
Defined.

Lemma variant2_objects env svc req w :
  objects (snd (Variant2Route.post_upload env svc req w)) = objects w \/
  exists file raw,
    upload_single (file_part req) = inr (Some file) /\
    supplied (rawUserId req) = Some raw /\
    objects (snd (Variant2Route.post_upload env svc req w)) =
      <[(BUCKET env, Variant2.key env (Variant2.userId raw))
        := Variant2Route.put_object file]> (objects w).
Proof.
  rewrite variant2_run.
  destruct (upload_single (file_part req)) as [err|[file|]];
    [left; reflexivity| |left; reflexivity].
  destruct (supplied (rawUserId req)) as [raw|]; [|left; reflexivity].
  cbv zeta. destruct (put_error svc _ _ _ _); [left; reflexivity|].
  right. exists file, raw. split; [reflexivity|]. split; [reflexivity|].
  destruct (public_base env); [reflexivity|].
  destruct (sign_reply svc _ _ _ _); reflexivity.
Qed.

Lemma variant2_201 env svc req w :
  status (fst (Variant2Route.post_upload env svc req w)) = 201 ->
  exists file raw u,
    upload_single (file_part req) = inr (Some file) /\
    supplied (rawUserId req) = Some raw /\
    fst (Variant2Route.post_upload env svc req w) =
      uploaded u (Variant2.key env (Variant2.userId raw)) /\
    objects (snd (Variant2Route.post_upload env svc req w)) =
      <[(BUCKET env, Variant2.key env (Variant2.userId raw))
        := Variant2Route.put_object file]> (objects w).
Proof.
  rewrite variant2_run.
  destruct (upload_single (file_part req)) as [err|[file|]] eqn:Hm.
  - cbn [fst]. destruct (error_middleware_status err) as [E|E]; rewrite E; discriminate.
  - destruct (supplied (rawUserId req)) as [raw|] eqn:Hr; [|discriminate].
    cbv zeta. destruct (put_error svc _ _ _ _); [discriminate|].
    destruct (public_base env).
    + intros _. exists file, raw. eexists. repeat split.
    + destruct (sign_reply svc _ _ _ _); [discriminate|].
      intros _. exists file, raw. eexists. repeat split.
  - discriminate.
Qed.

Lemma variant2_twice_eq env svc req1 req2 w :
  variant2_twice env svc req1 req2 w =
  (fst (Variant2Route.post_upload env svc req1 w),
   fst (Variant2Route.post_upload env svc req2
          (snd (Variant2Route.post_upload env svc req1 w))),
   snd (Variant2Route.post_upload env svc req2
          (snd (Variant2Route.post_upload env svc req1 w)))).
Proof.
  unfold variant2_twice.
  destruct (Variant2Route.post_upload env svc req1 w) as [r1 w1]. cbn [fst snd].
  destruct (Variant2Route.post_upload env svc req2 w1) as [r2 w2]. reflexivity.
Qed.

(** X14. In the second variant there is one object per identifier: the key
    is the prefix and the sanitized identifier, without the file name's
    extension, so a second successful upload by the same identifier
    replaces the object whatever the two files are called. *)
Theorem X14_variant2_one_object_per_identifier env svc req1 req2 raw w
  (Hr1 : supplied (rawUserId req1) = Some raw)
  (Hr2 : supplied (rawUserId req2) = Some raw)
  (H201 : status (snd (fst (variant2_twice env svc req1 req2 w))) = 201) :
  exists file2 u,
    file_part req2 = Some file2 /\
    snd (fst (variant2_twice env svc req1 req2 w)) =
      uploaded u (PROFILE_PREFIX env +:+ "/" +:+ Js.replace_slashes raw) /\
    objects (snd (variant2_twice env svc req1 req2 w)) =
      <[(BUCKET env, PROFILE_PREFIX env +:+ "/" +:+ Js.replace_slashes raw)
        := Variant2Route.put_object file2]> (objects w).
Proof.
  rewrite variant2_twice_eq in *. cbn [fst snd] in *.
  destruct (variant2_201 _ _ _ _ H201) as (file2 & raw2 & u & Hm2 & Hraw2 & Hu & Hobj).
  rewrite Hr2 in Hraw2. injection Hraw2 as <-.
  exists file2, u. split; [apply upload_single_same, Hm2|]. split; [exact Hu|].
  rewrite Hobj.
  destruct (variant2_objects env svc req1 w) as [->|(f & r & _ & Hr & ->)];
    [reflexivity|].
  rewrite Hr1 in Hr. injection Hr as <-. apply insert_insert_eq.
Qed.

Lemma X14_variant2_one_object_per_identifier_witness :
  exists file2 u,
    file_part png_request = Some file2 /\
    snd (fst (variant2_twice sample_env signing_service jpg_request png_request
                empty_world)) =
      uploaded u (PROFILE_PREFIX sample_env +:+ "/" +:+ Js.replace_slashes "u1") /\
    objects (snd (variant2_twice sample_env signing_service jpg_request png_request
                    empty_world)) =
      <[(BUCKET sample_env, PROFILE_PREFIX sample_env +:+ "/" +:+ Js.replace_slashes "u1")
        := Variant2Route.put_object file2]> (objects empty_world).
Proof.
  exact (X14_variant2_one_object_per_identifier sample_env signing_service
           jpg_request png_request "u1" empty_world eq_refl eq_refl eq_refl).
Defined.

(** X15. The second variant reads the content type off the lower-cased
    extension: what it declares is the declared type when that begins with
    image/, and otherwise image/png, image/gif or image/webp for .png, .gif
    and .webp in any case, image/jpeg for the rest. It agrees with
    server.js whenever the extension has no upper-case letter, and it
    stores with no-store where server.js stores with a one-year
    max-age. *)
Theorem X15_variant2_content_type (file : File) :
  ContentType (Variant2Route.put_object file) =
    Spec.resolveMime (mimetype file)
      (Js.toLowerCase (Path.extname (originalname file))) /\
  Js.starts_with "image/" (ContentType (Variant2Route.put_object file)) = true /\
  (Js.toLowerCase (Path.extname (originalname file)) = Path.extname (originalname file) ->
   ContentType (Variant2Route.put_object file) = ContentType (put_object file)) /\
  CacheControl (Variant2Route.put_object file) = "no-store, max-age=0" /\
  CacheControl (put_object file) = "public, max-age=31536000".
Proof.
  assert (H1 : ContentType (Variant2Route.put_object file) =
               Spec.resolveMime (mimetype file)
                 (Js.toLowerCase (Path.extname (originalname file)))).
  { cbn [Variant2Route.put_object ContentType]. rewrite mime_resolveMime.
    unfold Variant2.ext. rewrite or_else_empty. reflexivity. }
  split; [exact H1|]. split; [apply mime_is_image|]. split; [|split; reflexivity].
  intros Hlow. rewrite H1, Hlow.
  cbn [put_object ContentType]. rewrite mime_resolveMime.
  unfold Spec.resolveMime, ext, Js.or_else.
  destruct (Js.starts_with _ _); [reflexivity|].
  destruct (Path.extname _); reflexivity.
Qed.

Example variant2_upper_case_extension :
  ContentType (Variant2Route.put_object
                 {| originalname := "A.PNG"; mimetype := "application/octet-stream";
                    buffer := jpeg_bytes |}) = "image/png".
Proof. reflexivity. Qed.

(** ** The test script against the server *)

Lemma pretty_N_char_no_slash x : Ascii.eqb "/" (pretty_N_char x) = false.
Proof. unfold pretty_N_char. repeat case_match; reflexivity. Qed.

Lemma pretty_N_go_no_slash x :
  forall s, Js.includes "/" s = false -> Js.includes "/" (pretty_N_go x s) = false.
Proof.
  induction (N.lt_wf_0 x) as [x _ IH]; intros s Hs.
  assert (x = 0 \/ 0 < x)%N as [->|Hpos] by lia.
  - rewrite pretty_N_go_0. exact Hs.
  - rewrite pretty_N_go_step by exact Hpos. apply IH.
    + apply N.div_lt; [exact Hpos|reflexivity].
    + rewrite PathSlash.includes_slash_cons, pretty_N_char_no_slash. exact Hs.
Qed.

Lemma pretty_N_no_slash (x : N) : Js.includes "/" (pretty x) = false.
Proof.
  unfold pretty, pretty_N. destruct (decide (x = 0%N)); [reflexivity|].
  apply pretty_N_go_no_slash. reflexivity.
Qed.

Lemma replace_slashes_id s :
  Js.includes "/" s = false -> Js.replace_slashes s = s.
Proof.
  induction s as [|c s IH]; [reflexivity|].
  rewrite PathSlash.includes_slash_cons. intros H.
  apply orb_false_elim in H as [Hc Hs].
  cbn [Js.replace_slashes]. rewrite Ascii.eqb_sym, Hc, (IH Hs). reflexivity.
Qed.

Lemma test_form_identifier now :
  supplied (rawUserId (TestApi.form now)) = Some ("test-user-" +:+ pretty now).
Proof. reflexivity. Qed.

Lemma test_form_key env svc now w :
  derived_key env svc (TestApi.form now) TestApi.blob w =
  PROFILE_PREFIX env +:+ "/" +:+ "test-user-" +:+ pretty now +:+ ".jpg".
Proof.
  rewrite (derived_key_supplied _ _ _ _ _ _ (test_form_identifier now)).
  rewrite replace_slashes_id.
  - rewrite append_assoc_string. reflexivity.
  - rewrite includes_slash_app, pretty_N_no_slash. reflexivity.
Qed.

Lemma truthy_app_r a c s : Js.truthy (a +:+ String c s) = true.
Proof. destruct a; reflexivity. Qed.

Lemma truthy_app_slash a k : Js.truthy (a +:+ "/" +:+ k) = true.
Proof. exact (truthy_app_r a "/"%char k). Qed.

(** X16. The repository's test script passes against the server exactly
    when the put of its upload goes through and a non-empty URL comes back
    (always so with a public base URL, the signer's answer otherwise). Its
    upload is accepted by the filter and the size limit, it is stored
    under prefix/test-user-<clock>.jpg, and two runs at different clock
    readings write to different keys. *)
Theorem X16_test_script env svc now w :
  upload_single (file_part (TestApi.form now)) = inr (Some TestApi.blob) /\
  derived_key env svc (TestApi.form now) TestApi.blob w =
    PROFILE_PREFIX env +:+ "/" +:+ "test-user-" +:+ pretty now +:+ ".jpg" /\
  (forall now' svc' w',
      now' <> now ->
      derived_key env svc' (TestApi.form now') TestApi.blob w' <>
      derived_key env svc (TestApi.form now) TestApi.blob w) /\
  (TestApi.run env svc now w = true <->
   put_error svc w (BUCKET env)
     (derived_key env svc (TestApi.form now) TestApi.blob w)
     (put_object TestApi.blob) = None /\
   (is_Some (public_base env) \/
    exists u,
      sign_reply svc (put_done env svc (TestApi.form now) TestApi.blob w) (BUCKET env)
        (derived_key env svc (TestApi.form now) TestApi.blob w) (60 * 60 * 24 * 6) = inr u /\
      u <> EmptyString)).
Proof.
  split; [reflexivity|]. split; [apply test_form_key|]. split.
  - intros now' svc' w' Hne E. apply Hne.
    rewrite !test_form_key in E.
    apply (inj (String.app (PROFILE_PREFIX env))) in E.
    apply (inj (String.app "/")) in E.
    apply (inj (String.app "test-user-")) in E.
    assert (Hp : pretty now' = pretty now).
    { assert (Hlen : forall a b : string, a +:+ ".jpg" = b +:+ ".jpg" -> a = b).
      { induction a as [|x a IH]; intros [|y b] Hab.
        - reflexivity.
        - exfalso. change (String y b +:+ ".jpg") with (String y (b +:+ ".jpg")) in Hab.
          change (EmptyString +:+ ".jpg") with ".jpg" in Hab.
          injection Hab as -> Hab. destruct b as [|? [|? [|? [|? ?]]]]; discriminate Hab.
        - exfalso. change (String x a +:+ ".jpg") with (String x (a +:+ ".jpg")) in Hab.
          change (EmptyString +:+ ".jpg") with ".jpg" in Hab.
          injection Hab as -> Hab. destruct a as [|? [|? [|? [|? ?]]]]; discriminate Hab.
        - change (String x a +:+ ".jpg") with (String x (a +:+ ".jpg")) in Hab.
          change (String y b +:+ ".jpg") with (String y (b +:+ ".jpg")) in Hab.
          injection Hab as -> Hab. f_equal. apply IH, Hab. }
      apply Hlen, E. }
    apply (inj pretty) in Hp. exact Hp.
  - unfold TestApi.run, TestApi.testHealth, TestApi.testUpload. cbn [get_health json TestApi.data_ok andb].
    rewrite post_upload_run.
    replace (upload_single (file_part (TestApi.form now))) with
      (@inr JsError _ (Some TestApi.blob)) by reflexivity.
    cbv zeta.
    replace (after_identifier (TestApi.form now) w) with w by reflexivity.
    destruct (put_error svc w _ _ _) as [msg|].
    { cbn. split; [discriminate|]. intros [[=] _]. }
    destruct (public_base env) as [b|].
    { cbn [fst uploaded TestApi.ok status json TestApi.data_url].
      rewrite truthy_app_slash.
      split; [intros _; split; [reflexivity|left; eauto]|reflexivity]. }
    destruct (sign_reply svc _ _ _ _) as [msg|u].
    { cbn. split; [discriminate|]. intros [_ [[? [=]]|(u & [=] & _)]]. }
    cbn [fst uploaded TestApi.ok status json TestApi.data_url].
    change ((200 <=? 201) && (201 <=? 299)) with true. cbn [andb].
    split.
    + intros Hu. split; [reflexivity|]. right. exists u. split; [reflexivity|].
      intros ->. discriminate Hu.
    + intros [_ [[? [=]]|(u' & [= <-] & Hne)]]. destruct u; [destruct Hne|]; reflexivity.
Qed.

Example test_script_passes :
  TestApi.run sample_env signing_service 1714557600000 empty_world = true.
Proof. vm_compute. reflexivity. Qed.

Example test_script_fails_without_storage :
  TestApi.run sample_env refusing_service 1714557600000 empty_world = false.
Proof. vm_compute. reflexivity. Qed.

(** ** The filter and letter case *)

Lemma lower_char_slash c : Ascii.eqb (Js.lower_char c) "/" = Ascii.eqb c "/".
Proof. destruct c as [[] [] [] [] [] [] [] []]; reflexivity. Qed.

Lemma lower_char_dot c : Ascii.eqb (Js.lower_char c) "." = Ascii.eqb c ".".
Proof. destruct c as [[] [] [] [] [] [] [] []]; reflexivity. Qed.

Lemma lower_char_idem c : Js.lower_char (Js.lower_char c) = Js.lower_char c.
Proof. destruct c as [[] [] [] [] [] [] [] []]; reflexivity. Qed.

Lemma toLowerCase_idem s : Js.toLowerCase (Js.toLowerCase s) = Js.toLowerCase s.
Proof.
  induction s as [|c s IH]; [reflexivity|].
  cbn [Js.toLowerCase]. rewrite lower_char_idem, IH. reflexivity.
Qed.

Lemma list_ascii_toLowerCase s :
  list_ascii_of_string (Js.toLowerCase s) = map Js.lower_char (list_ascii_of_string s).
Proof.
  induction s as [|c s IH]; [reflexivity|].
  cbn [Js.toLowerCase list_ascii_of_string map]. rewrite IH. reflexivity.
Qed.

Lemma extname_loop_lower r :
  forall i st,
    Path.extname_loop (map Js.lower_char r) i st = Path.extname_loop r i st.
Proof.
  induction r as [|c r IH]; intros i st; [reflexivity|].
  cbn [map Path.extname_loop].
  rewrite lower_char_slash, lower_char_dot, !IH. reflexivity.
Qed.

Lemma substring_toLowerCase s :
  forall n m,
    String.substring n m (Js.toLowerCase s) = Js.toLowerCase (String.substring n m s).
Proof.
  induction s as [|c s IH]; intros [|n] [|m]; try reflexivity.
  - cbn [Js.toLowerCase String.substring]. rewrite IH. reflexivity.
  - cbn [Js.toLowerCase String.substring]. apply IH.
  - cbn [Js.toLowerCase String.substring]. apply IH.
Qed.

(** Taking the extension commutes with lower-casing. *)
Lemma extname_toLowerCase path :
  Path.extname (Js.toLowerCase path) = Js.toLowerCase (Path.extname path).
Proof.
  unfold Path.extname.
  rewrite list_ascii_toLowerCase, <- map_rev, length_map, extname_loop_lower.
  destruct (_ || _ || _ || _); [reflexivity|]. apply substring_toLowerCase.
Qed.

(** X17. Letter case never matters to the filter: two files whose declared
    types and whose names differ only in the case of letters get the same
    verdict. *)
Theorem X17_filter_ignores_case (f g : File)
  (Htype : Js.toLowerCase (mimetype f) = Js.toLowerCase (mimetype g))
  (Hname : Js.toLowerCase (originalname f) = Js.toLowerCase (originalname g)) :
  fileFilter f = fileFilter g.
Proof.
  unfold fileFilter.
  rewrite !allowedMime_test_lower, !or_else_empty, Htype.
  rewrite <- !extname_toLowerCase, Hname. reflexivity.
Qed.

Lemma X17_filter_ignores_case_witness :
  fileFilter upper_png = fileFilter a_png.
Proof.
  exact (X17_filter_ignores_case upper_png a_png eq_refl eq_refl).
Defined.


